(** * Lecture09_PyTorch: a verification model of the notebook

    The notebook [Lecture09_PyTorch.ipynb] is a sequence of code cells that
    call a tensor framework.  This development embeds the cells as Rocq
    functions: framework calls that can raise return in the error monad
    [res], tensors are lists (of lists) of elements, the kernel's global
    namespace is a finite map from names to values, and the file system is a
    finite map from paths to file contents.

    Element types.  Integer tensors ([torch.int64]) are lists of [Z] with the
    64-bit wrap-around written out.  Floating-point tensors are lists over an
    abstract element type [F] with the operations of the class [Scalar]; no
    law of arithmetic is assumed about them, so every statement proved for
    all [F] holds whatever the rounding is.  Two instances are used where a
    cell is evaluated on concrete numbers: [Scalar Q], exact rationals kept
    in lowest terms, and [Scalar (option Z)], the integers on which
    [float32] arithmetic is exact. *)

From Stdlib Require Import ZArith QArith Lia.
From stdpp Require Import base option list strings gmap.

Local Open Scope string_scope.
Local Open Scope list_scope.
Local Open Scope Z_scope.

(** ** Errors raised by the framework and by Python *)

Inductive error : Type :=
| IndexError
| RuntimeError
| FileNotFoundError
| PermissionError
| UnpicklingError
| NameError (name : string)
| AttributeError
| TypeError.

Inductive res (A : Type) : Type :=
| Ok (a : A)
| Err (e : error).
Arguments Ok {A} a.
Arguments Err {A} e.

Definition rbind {A B : Type} (m : res A) (k : A → res B) : res B :=
  match m with
  | Ok a => k a
  | Err e => Err e
  end.

Declare Scope res_scope.
Delimit Scope res_scope with res.
Notation "'let*' x := m 'in' k" := (rbind m (fun x => k))
  (at level 10, x pattern, m at level 100, k at level 200) : res_scope.
Local Open Scope res_scope.

(** ** Integer tensors (cell 10) *)

Module IntTensor.

(** [torch.int64] arithmetic: two's complement on 64 bits. *)
Definition wrap64 (z : Z) : Z := (z + 2 ^ 63) mod 2 ^ 64 - 2 ^ 63.

Definition add64 (a b : Z) : Z := wrap64 (a + b).
Definition mul64 (a b : Z) : Z := wrap64 (a * b).

(** A 1-D integer tensor, [torch.tensor([1, 2, 3])]. *)
Definition tensor1 : Type := list Z.

(** Broadcasting of two 1-D shapes: equal lengths, or one of them 1. *)
Definition broadcast2 (f : Z → Z → Z) (a b : tensor1) : res tensor1 :=
  if (length a =? length b)%nat then Ok (zip_with f a b)
  else match a, b with
       | [x], _ => Ok (map (f x) b)
       | _, [y] => Ok (map (fun x => f x y) a)
       | _, _ => Err RuntimeError
       end.

(** [a + b] and [a * b]: elementwise. *)
Definition tensor_add : tensor1 → tensor1 → res tensor1 := broadcast2 add64.
Definition tensor_mul : tensor1 → tensor1 → res tensor1 := broadcast2 mul64.

(** [torch.matmul(a, b)] on two 1-D tensors: the dot product, a 0-D
    tensor; the sizes must agree. *)
Definition matmul (a b : tensor1) : res Z :=
  if (length a =? length b)%nat
  then Ok (foldl add64 0 (zip_with mul64 a b))
  else Err RuntimeError.

Definition a : tensor1 := [1; 2; 3].
Definition b : tensor1 := [4; 5; 6].

End IntTensor.

(** ** Device selection (cell 12) *)

Module Device.

(** The two queries of the snippet, [torch.backends.mps.is_available()]
    and [torch.cuda.is_available()], are the inputs. *)
Definition select_device (mps_available cuda_available : bool) : string :=
  if mps_available then "mps"
  else if cuda_available then "cuda"
  else "cpu".

End Device.

(** ** Floating-point elements *)

(** The operations the cells use on tensor elements.  [fconst q] is the
    element a literal such as [0.1] denotes; [fpos x] is the test [x > 0]
    of ReLU. *)
Class Scalar (F : Type) : Type := {
  fconst : Q → F;
  fadd : F → F → F;
  fsub : F → F → F;
  fmul : F → F → F;
  fdiv : F → F → F;
  fpos : F → bool
}.

(** Exact rationals in lowest terms. *)
#[export] Instance Scalar_Q : Scalar Q := {|
  fconst q := Qred q;
  fadd a b := Qred (a + b);
  fsub a b := Qred (a - b);
  fmul a b := Qred (a * b);
  fdiv a b := Qred (a / b);
  fpos a := (0 <? Qnum a)%Z
|}.

(** The part of [torch.float32] on which arithmetic is exact.  Every integer
    of magnitude at most [2^24] is a [float32] value, and an operation whose
    operands and whose mathematical result are such integers returns that
    result without rounding.  [Some z] is the value [z]; [None] stands for
    every other value, and an operation returns [None] as soon as its
    result is not known to be exact. *)
Definition f32_exact (z : Z) : option Z :=
  if Z.abs z <=? 2 ^ 24 then Some z else None.

Definition exactly (op : Z → Z → option Z) (a b : option Z) : option Z :=
  match a, b with
  | Some x, Some y => op x y
  | _, _ => None
  end.

#[export] Instance Scalar_f32_exact : Scalar (option Z) := {|
  fconst q :=
    let r := Qred q in
    if Z.pos (Qden r) =? 1 then f32_exact (Qnum r) else None;
  fadd := exactly (fun x y => f32_exact (x + y));
  fsub := exactly (fun x y => f32_exact (x - y));
  fmul := exactly (fun x y => f32_exact (x * y));
  fdiv := exactly (fun x y =>
            if (y =? 0) || negb (x mod y =? 0) then None
            else f32_exact (x / y));
  fpos a := match a with Some x => 0 <? x | None => false end
|}.

Section Elements.
Context {F : Type} `{Scalar F}.

Definition fzero : F := fconst 0.
Definition fone : F := fconst 1.
Definition of_nat (n : nat) : F := fconst (inject_Z (Z.of_nat n)).

(** Sum of the elements of a list, left to right. *)
Definition fsum (l : list F) : F := foldl fadd fzero l.

(** [x ** n] for a literal exponent [n]. *)
Fixpoint fpow (x : F) (n : nat) : F :=
  match n with
  | O => fone
  | S O => x
  | S n' => fmul x (fpow x n')
  end.

Definition tabulate {A : Type} (n : nat) (f : nat → A) : list A :=
  map f (seq 0 n).

Definition tabulate2 {A : Type} (rows cols : nat) (f : nat → nat → A)
  : list (list A) :=
  tabulate rows (fun i => tabulate cols (f i)).
End Elements.

(** ** Autograd on scalar expressions (cell 14) *)

Module Autograd.
Section Autograd.
Context {F : Type} `{Scalar F}.

(** The graph recorded while an expression over tracked scalars is
    evaluated: leaves are the tensors the user created, inner nodes the
    operations [**] (with a literal exponent) and [+]. *)
Inductive node : Type :=
| Leaf (name : string) (data : F) (requires_grad : bool)
| Pow (base : node) (exponent : nat)
| Add (l r : node).

(** The value of the tensor a node stands for. *)
Fixpoint value (n : node) : F :=
  match n with
  | Leaf _ v _ => v
  | Pow b e => fpow (value b) e
  | Add l r => fadd (value l) (value r)
  end.

(** The [.grad] fields of the leaves, by leaf name; an unbound name is a
    [.grad] that is [None]. *)
Definition accumulate (name : string) (g : F) (grads : gmap string F)
  : gmap string F :=
  match grads !! name with
  | None => <[name := g]> grads
  | Some old => <[name := fadd old g]> grads
  end.

(** Reverse accumulation: [g] is the gradient flowing into the node.
    [PowBackward] sends [g * (e * base ** (e - 1))] to its input,
    [AddBackward] sends [g] to both inputs, a leaf that requires grad
    accumulates into its [.grad]. *)
Fixpoint backward_from (n : node) (g : F) (grads : gmap string F)
  : gmap string F :=
  match n with
  | Leaf name _ true => accumulate name g grads
  | Leaf _ _ false => grads
  | Pow b e =>
      backward_from b (fmul g (fmul (of_nat e) (fpow (value b) (e - 1)))) grads
  | Add l r => backward_from r g (backward_from l g grads)
  end.

(** [z.backward()] on a scalar [z]: the seed gradient is [1.0]. *)
Definition backward (z : node) (grads : gmap string F) : gmap string F :=
  backward_from z fone grads.

(** The cell: [x] and [y] are created with [requires_grad=True],
    [z = x**2 + y**3], then [z.backward()]; the result is the [.grad] of
    every leaf.  The literals are parameters, the notebook's are [2.0] and
    [3.0]. *)
Definition x_leaf (xv : Q) : node := Leaf "x" (fconst xv) true.
Definition y_leaf (yv : Q) : node := Leaf "y" (fconst yv) true.
Definition z_node (xv yv : Q) : node :=
  Add (Pow (x_leaf xv) 2) (Pow (y_leaf yv) 3).

Definition autograd_cell (xv yv : Q) : gmap string F :=
  backward (z_node xv yv) ∅.
End Autograd.
End Autograd.

(** ** Modules: [nn.Linear], [nn.ReLU] and [SimpleNN] (cell 16) *)

(** Float tensors of rank 1 and 2: a vector is a list of elements, a matrix
    a list of rows. *)
Abbreviation vec F := (list F) (only parsing).
Abbreviation matrix F := (list (list F)) (only parsing).

Module NN.
Section NN.
Context {F : Type} `{Scalar F}.

(** A [torch.nn.Parameter]: the tensor and its [.grad]. *)
Record Param (T : Type) : Type := mkParam {
  data : T;
  grad : option T
}.
Arguments mkParam {T} data grad.
Arguments data {T} p.
Arguments grad {T} p.

(** [nn.Linear(in_features, out_features)]: [weight] has shape
    [(out_features, in_features)], [bias] has shape [(out_features)]. *)
Record Linear : Type := mkLinear {
  in_features : nat;
  out_features : nat;
  weight : Param (matrix F);
  bias : Param (vec F)
}.

(** [nn.ReLU()] has no state. *)
Inductive ReLU : Type := mkReLU.

(** The fields that [SimpleNN.__init__] assigns, and the [training] flag
    of [nn.Module]. *)
Record SimpleNN : Type := mkSimpleNN {
  layer1 : Linear;
  layer2 : Linear;
  relu : ReLU;
  training : bool
}.

(** The values an initialiser draws for the four parameter tensors. *)
Record init_draw : Type := mkInit {
  draw_w1 : nat → nat → F;
  draw_b1 : nat → F;
  draw_w2 : nat → nat → F;
  draw_b2 : nat → F
}.

Definition Linear_new (inf outf : nat) (w : nat → nat → F) (b : nat → F)
  : Linear :=
  {| in_features := inf;
     out_features := outf;
     weight := mkParam (tabulate2 outf inf w) None;
     bias := mkParam (tabulate outf b) None |}.

(** [SimpleNN()]. *)
Definition SimpleNN_new (d : init_draw) : SimpleNN :=
  {| layer1 := Linear_new 10 5 (draw_w1 d) (draw_b1 d);
     layer2 := Linear_new 5 1 (draw_w2 d) (draw_b2 d);
     relu := mkReLU;
     training := true |}.

(** The registered sub-modules, in registration order. *)
Inductive submodule : Type :=
| SubLinear (l : Linear)
| SubReLU (r : ReLU).

Definition children (m : SimpleNN) : list (string * submodule) :=
  [("layer1", SubLinear (layer1 m));
   ("layer2", SubLinear (layer2 m));
   ("relu", SubReLU (relu m))].

Definition linear_children (m : SimpleNN) : list Linear :=
  omap (fun c => match c.2 with SubLinear l => Some l | SubReLU _ => None end)
       (children m).

(** *** Forward computations *)

Definition dot (r w : vec F) : F := fsum (zip_with fmul r w).

(** One row through an affine map: [W r + b]. *)
Definition affine (W : matrix F) (b : vec F) (r : vec F) : vec F :=
  zip_with fadd (map (dot r) W) b.

(** [F.linear] raises when the last dimension of the input is not the
    number of columns of the weight. *)
Definition fits (W : matrix F) (r : vec F) : bool :=
  forallb (fun w => (length r =? length w)%nat) W.

Definition Linear_forward (l : Linear) (x : matrix F) : res (matrix F) :=
  if forallb (fits (data (weight l))) x
  then Ok (map (affine (data (weight l)) (data (bias l))) x)
  else Err RuntimeError.

Definition relu1 (v : F) : F := if fpos v then v else fzero.

Definition ReLU_forward (_ : ReLU) (x : matrix F) : matrix F :=
  map (map relu1) x.

(** [SimpleNN.forward]:
    [x = self.relu(self.layer1(x)); x = self.layer2(x); return x]. *)
Definition SimpleNN_forward (m : SimpleNN) (x : matrix F) : res (matrix F) :=
  let* x := Linear_forward (layer1 m) x in
  let x := ReLU_forward (relu m) x in
  let* x := Linear_forward (layer2 m) x in
  Ok x.

(** *** Shapes *)

Definition has_shape (rows cols : nat) (x : matrix F) : Prop :=
  length x = rows ∧ Forall (fun r => length r = cols) x.

Definition Linear_shape (inf outf : nat) (l : Linear) : Prop :=
  in_features l = inf ∧ out_features l = outf
  ∧ has_shape outf inf (data (weight l))
  ∧ length (data (bias l)) = outf.

(** Layer 1 maps 10 features to 5, layer 2 maps 5 features to 1. *)
Definition SimpleNN_shape (m : SimpleNN) : Prop :=
  Linear_shape 10 5 (layer1 m) ∧ Linear_shape 5 1 (layer2 m).

(** *** [state_dict] and [load_state_dict] *)

Inductive ptensor : Type :=
| PMat (t : matrix F)
| PVec (t : vec F).

Definition same_shape (a b : ptensor) : bool :=
  match a, b with
  | PMat x, PMat y => bool_decide (map length x = map length y)
  | PVec x, PVec y => (length x =? length y)%nat
  | _, _ => false
  end.

(** [model.state_dict()]: parameter name to tensor; [relu] has no
    parameter. *)
Definition state_dict (m : SimpleNN) : gmap string ptensor :=
  <["layer1.weight" := PMat (data (weight (layer1 m)))]>
  (<["layer1.bias" := PVec (data (bias (layer1 m)))]>
  (<["layer2.weight" := PMat (data (weight (layer2 m)))]>
  (<["layer2.bias" := PVec (data (bias (layer2 m)))]> ∅))).

(** The parameters in the order of [model.parameters()]. *)
Definition parameters (m : SimpleNN) : list (string * ptensor) :=
  [("layer1.weight", PMat (data (weight (layer1 m))));
   ("layer1.bias", PVec (data (bias (layer1 m))));
   ("layer2.weight", PMat (data (weight (layer2 m))));
   ("layer2.bias", PVec (data (bias (layer2 m))))].

(** Copy of one entry into a parameter: the entry must have the
    parameter's shape; the parameter keeps its [.grad]. *)
Definition load_mat (sd : gmap string ptensor) (k : string) (p : Param (matrix F))
  : res (Param (matrix F)) :=
  match sd !! k with
  | Some (PMat t) =>
      if same_shape (PMat (data p)) (PMat t)
      then Ok (mkParam t (grad p)) else Err RuntimeError
  | _ => Err RuntimeError
  end.

Definition load_vec (sd : gmap string ptensor) (k : string) (p : Param (vec F))
  : res (Param (vec F)) :=
  match sd !! k with
  | Some (PVec t) =>
      if same_shape (PVec (data p)) (PVec t)
      then Ok (mkParam t (grad p)) else Err RuntimeError
  | _ => Err RuntimeError
  end.

(** [load_state_dict(sd)] with the default [strict=True]: missing or
    unexpected keys and size mismatches raise [RuntimeError]. *)
Definition load_state_dict (m : SimpleNN) (sd : gmap string ptensor)
  : res SimpleNN :=
  if bool_decide (dom sd = dom (state_dict m)) then
    let* w1 := load_mat sd "layer1.weight" (weight (layer1 m)) in
    let* b1 := load_vec sd "layer1.bias" (bias (layer1 m)) in
    let* w2 := load_mat sd "layer2.weight" (weight (layer2 m)) in
    let* b2 := load_vec sd "layer2.bias" (bias (layer2 m)) in
    Ok {| layer1 := {| in_features := in_features (layer1 m);
                       out_features := out_features (layer1 m);
                       weight := w1; bias := b1 |};
          layer2 := {| in_features := in_features (layer2 m);
                       out_features := out_features (layer2 m);
                       weight := w2; bias := b2 |};
          relu := relu m;
          training := training m |}
  else Err RuntimeError.
End NN.
Arguments mkParam {T} data grad.
Arguments data {T} p.
Arguments grad {T} p.
Arguments Linear F : clear implicits.
Arguments SimpleNN F : clear implicits.
Arguments init_draw F : clear implicits.
Arguments ptensor F : clear implicits.
End NN.

(** ** The training cell (cell 18) *)

Module Train.
Import NN.
Section Train.
Context {F : Type} `{Scalar F}.

(** *** Forward pass with the tensors autograd saves *)

(** What the graph of [outputs] keeps for the backward pass: the input of
    layer 1, the result of the ReLU (also the input of layer 2) and the
    weight of layer 2. *)
Record tape : Type := mkTape {
  t_x : matrix F;
  t_a1 : matrix F;
  t_w2 : matrix F
}.

Record out_tensor : Type := mkOut {
  o_value : matrix F;
  o_graph : tape
}.

(** [model(X)]: [nn.Module.__call__] runs [forward]; the graph is recorded
    on the way. *)
Definition model_call (m : SimpleNN F) (x : matrix F) : res out_tensor :=
  let* z1 := Linear_forward (layer1 m) x in
  let a1 := ReLU_forward (relu m) z1 in
  let* out := Linear_forward (layer2 m) a1 in
  Ok {| o_value := out;
        o_graph := {| t_x := x; t_a1 := a1;
                      t_w2 := data (weight (layer2 m)) |} |}.

(** *** [nn.MSELoss()] *)

Definition same_dims (a b : matrix F) : bool :=
  bool_decide (map length a = map length b).

Definition numel (a : matrix F) : nat := foldr Nat.add O (map length a).

Definition sq_err (o t : F) : F := let d := fsub o t in fmul d d.

Definition mse (out y : matrix F) : F :=
  fdiv (fsum (concat (zip_with (zip_with sq_err) out y))) (of_nat (numel out)).

Record loss_tensor : Type := mkLoss {
  l_value : F;
  l_input : matrix F;
  l_target : matrix F;
  l_graph : tape
}.

(** [criterion(outputs, y)] with the default mean reduction; input and
    target of different sizes are refused. *)
Definition criterion (outputs : out_tensor) (y : matrix F) : res loss_tensor :=
  if same_dims (o_value outputs) y
  then Ok {| l_value := mse (o_value outputs) y;
             l_input := o_value outputs;
             l_target := y;
             l_graph := o_graph outputs |}
  else Err RuntimeError.

(** *** [loss.backward()] *)

Definition col (x : matrix F) (k : nat) : vec F :=
  map (fun r => nth k r fzero) x.

(** Gradient of the mean squared error with respect to its input. *)
Definition d_mse (out y : matrix F) : matrix F :=
  zip_with (zip_with (fun o t =>
    fmul (fdiv (fconst 2) (of_nat (numel out))) (fsub o t))) out y.

(** Gradients of an affine layer: for the weight [d^T inp], for the bias
    the column sums of [d], for the input [d W]. *)
Definition d_weight (outf inf : nat) (d inp : matrix F) : matrix F :=
  tabulate2 outf inf (fun k j => dot (col d k) (col inp j)).

Definition d_bias (outf : nat) (d : matrix F) : vec F :=
  tabulate outf (fun k => fsum (col d k)).

Definition d_input (inf : nat) (d W : matrix F) : matrix F :=
  map (fun drow => tabulate inf (fun j => dot drow (col W j))) d.

(** Gradient through the ReLU: passes where the result is positive. *)
Definition d_relu (result d : matrix F) : matrix F :=
  zip_with (zip_with (fun a g => if fpos a then g else fzero)) result d.

(** Accumulation into [.grad]: set when [None], added otherwise. *)
Definition acc_mat (p : Param (matrix F)) (g : matrix F) : Param (matrix F) :=
  mkParam (data p)
    (Some (match grad p with
           | None => g
           | Some old => zip_with (zip_with fadd) old g
           end)).

Definition acc_vec (p : Param (vec F)) (g : vec F) : Param (vec F) :=
  mkParam (data p)
    (Some (match grad p with
           | None => g
           | Some old => zip_with fadd old g
           end)).

Definition backward (loss : loss_tensor) (m : SimpleNN F) : SimpleNN F :=
  let g := l_graph loss in
  let l1 := layer1 m in
  let l2 := layer2 m in
  let dout := d_mse (l_input loss) (l_target loss) in
  let da1 := d_input (in_features l2) dout (t_w2 g) in
  let dz1 := d_relu (t_a1 g) da1 in
  {| layer1 :=
       {| in_features := in_features l1;
          out_features := out_features l1;
          weight := acc_mat (weight l1)
                      (d_weight (out_features l1) (in_features l1) dz1 (t_x g));
          bias := acc_vec (bias l1) (d_bias (out_features l1) dz1) |};
     layer2 :=
       {| in_features := in_features l2;
          out_features := out_features l2;
          weight := acc_mat (weight l2)
                      (d_weight (out_features l2) (in_features l2) dout (t_a1 g));
          bias := acc_vec (bias l2) (d_bias (out_features l2) dout) |};
     relu := relu m;
     training := training m |}.

(** *** [optim.SGD]

    The optimizer holds references to the parameters of the model it was
    built from: [zero_grad] and [step] act on the model. *)
Record SGD : Type := mkSGD { lr : F }.

Definition clear {T : Type} (p : Param T) : Param T := mkParam (data p) None.

(** [optimizer.zero_grad()]: every [.grad] becomes [None]. *)
Definition zero_grad (_ : SGD) (m : SimpleNN F) : SimpleNN F :=
  {| layer1 :=
       {| in_features := in_features (layer1 m);
          out_features := out_features (layer1 m);
          weight := clear (weight (layer1 m));
          bias := clear (bias (layer1 m)) |};
     layer2 :=
       {| in_features := in_features (layer2 m);
          out_features := out_features (layer2 m);
          weight := clear (weight (layer2 m));
          bias := clear (bias (layer2 m)) |};
     relu := relu m;
     training := training m |}.

Definition descend (opt : SGD) (w g : F) : F := fsub w (fmul (lr opt) g).

(** One parameter update [p = p - lr * p.grad]; a parameter whose [.grad]
    is [None] is skipped, a gradient of another shape is refused. *)
Definition step_mat (opt : SGD) (p : Param (matrix F)) : res (Param (matrix F)) :=
  match grad p with
  | None => Ok p
  | Some g =>
      if same_shape (PMat (data p)) (PMat g)
      then Ok (mkParam (zip_with (zip_with (descend opt)) (data p) g) (Some g))
      else Err RuntimeError
  end.

Definition step_vec (opt : SGD) (p : Param (vec F)) : res (Param (vec F)) :=
  match grad p with
  | None => Ok p
  | Some g =>
      if same_shape (PVec (data p)) (PVec g)
      then Ok (mkParam (zip_with (descend opt) (data p) g) (Some g))
      else Err RuntimeError
  end.

(** [optimizer.step()]. *)
Definition step (opt : SGD) (m : SimpleNN F) : res (SimpleNN F) :=
  let* w1 := step_mat opt (weight (layer1 m)) in
  let* b1 := step_vec opt (bias (layer1 m)) in
  let* w2 := step_mat opt (weight (layer2 m)) in
  let* b2 := step_vec opt (bias (layer2 m)) in
  Ok {| layer1 := {| in_features := in_features (layer1 m);
                     out_features := out_features (layer1 m);
                     weight := w1; bias := b1 |};
        layer2 := {| in_features := in_features (layer2 m);
                     out_features := out_features (layer2 m);
                     weight := w2; bias := b2 |};
        relu := relu m;
        training := training m |}.

(** *** The loop *)

(** The framework calls and prints of the cell, in the order they are
    made. *)
Inductive call : Type :=
| CForward
| CLoss
| CZeroGrad
| CBackward
| CStep
| CPrint (epoch1 : nat).

(** The variables of the cell, its printed loss lines [(epoch + 1, loss)]
    and the calls made so far. *)
Record trainer : Type := mkTrainer {
  tr_X : matrix F;
  tr_y : matrix F;
  tr_model : SimpleNN F;
  tr_optimizer : SGD;
  tr_epoch : option nat;
  tr_outputs : option out_tensor;
  tr_loss : option loss_tensor;
  tr_stdout : list (nat * F);
  tr_calls : list call
}.

Definition set_epoch (s : trainer) (e : nat) : trainer :=
  mkTrainer (tr_X s) (tr_y s) (tr_model s) (tr_optimizer s) (Some e)
            (tr_outputs s) (tr_loss s) (tr_stdout s) (tr_calls s).

Definition set_outputs (s : trainer) (o : out_tensor) : trainer :=
  mkTrainer (tr_X s) (tr_y s) (tr_model s) (tr_optimizer s) (tr_epoch s)
            (Some o) (tr_loss s) (tr_stdout s) (tr_calls s ++ [CForward]).

Definition set_loss (s : trainer) (l : loss_tensor) : trainer :=
  mkTrainer (tr_X s) (tr_y s) (tr_model s) (tr_optimizer s) (tr_epoch s)
            (tr_outputs s) (Some l) (tr_stdout s) (tr_calls s ++ [CLoss]).

Definition set_model (c : call) (s : trainer) (m : SimpleNN F) : trainer :=
  mkTrainer (tr_X s) (tr_y s) m (tr_optimizer s) (tr_epoch s)
            (tr_outputs s) (tr_loss s) (tr_stdout s) (tr_calls s ++ [c]).

Definition print_loss (s : trainer) (epoch1 : nat) (l : loss_tensor) : trainer :=
  mkTrainer (tr_X s) (tr_y s) (tr_model s) (tr_optimizer s) (tr_epoch s)
            (tr_outputs s) (tr_loss s)
            (tr_stdout s ++ [(epoch1, l_value l)])
            (tr_calls s ++ [CPrint epoch1]).

(** The body of [for epoch in range(100)]. *)
Definition epoch_body (epoch : nat) (s : trainer) : res trainer :=
  let* outputs := model_call (tr_model s) (tr_X s) in
  let s := set_outputs s outputs in
  let* loss := criterion outputs (tr_y s) in
  let s := set_loss s loss in
  let s := set_model CZeroGrad s (zero_grad (tr_optimizer s) (tr_model s)) in
  let s := set_model CBackward s (backward loss (tr_model s)) in
  let* m := step (tr_optimizer s) (tr_model s) in
  let s := set_model CStep s m in
  if ((epoch + 1) mod 20 =? 0)%nat
  then Ok (print_loss s (epoch + 1) loss)
  else Ok s.

(** [for epoch in epochs: body]. *)
Fixpoint for_each (epochs : list nat) (s : trainer) : res trainer :=
  match epochs with
  | [] => Ok s
  | epoch :: rest =>
      let* s' := epoch_body epoch (set_epoch s epoch) in
      for_each rest s'
  end.

(** [range(n)]. *)
Definition range (n : nat) : list nat := seq 0 n.

(** The statements before the loop.  [xdraw] is what [torch.randn(100, 10)]
    draws and [d] what [SimpleNN()] draws for its parameters. *)
Definition setup (xdraw : nat → nat → F) (d : init_draw F) : trainer :=
  let X := tabulate2 100 10 xdraw in
  let y := map (fun r => [fmul (fsum r) (fconst 0.1)]) X in
  {| tr_X := X;
     tr_y := y;
     tr_model := SimpleNN_new d;
     tr_optimizer := {| lr := fconst 0.01 |};
     tr_epoch := None;
     tr_outputs := None;
     tr_loss := None;
     tr_stdout := [];
     tr_calls := [] |}.

(** The cell run for the first [n] epochs of its loop, and the cell. *)
Definition train_epochs (n : nat) (xdraw : nat → nat → F) (d : init_draw F)
  : res trainer :=
  for_each (range n) (setup xdraw d).

Definition training_cell (xdraw : nat → nat → F) (d : init_draw F)
  : res trainer :=
  for_each (range 100) (setup xdraw d).

(** What one iteration is claimed to do. *)
Definition iteration_calls (epoch : nat) : list call :=
  [CForward; CLoss; CZeroGrad; CBackward; CStep]
  ++ (if ((epoch + 1) mod 20 =? 0)%nat then [CPrint (epoch + 1)] else []).

(** *** Invariants of the loop *)

(** Every [.grad] is [None], as after [zero_grad]. *)
Definition grads_none (m : SimpleNN F) : Prop :=
  grad (weight (layer1 m)) = None ∧ grad (bias (layer1 m)) = None
  ∧ grad (weight (layer2 m)) = None ∧ grad (bias (layer2 m)) = None.

(** Every [.grad] holds a tensor of the shape of its parameter, as after
    [backward]. *)
Definition grads_fit (m : SimpleNN F) : Prop :=
  (∃ g, grad (weight (layer1 m)) = Some g ∧ has_shape 5 10 g)
  ∧ (∃ g, grad (bias (layer1 m)) = Some g ∧ length g = 5%nat)
  ∧ (∃ g, grad (weight (layer2 m)) = Some g ∧ has_shape 1 5 g)
  ∧ (∃ g, grad (bias (layer2 m)) = Some g ∧ length g = 1%nat).

(** The data is a batch of 100 rows of 10 features with one target per
    row, and the model has the shapes of [SimpleNN]. *)
Definition train_inv (s : trainer) : Prop :=
  has_shape 100 10 (tr_X s) ∧ has_shape 100 1 (tr_y s)
  ∧ SimpleNN_shape (tr_model s).

(** One iteration as the specification describes it, from the state [s]
    at the top of the loop body to the state [s'] at its end: the forward
    pass on the whole of [X], the loss against [y], [zero_grad],
    [backward], one [step], in this order, and the loss line when
    [epoch + 1] is a multiple of 20. *)
Definition iteration (epoch : nat) (s s' : trainer) : Prop :=
  ∃ outputs loss m',
    model_call (tr_model s) (tr_X s) = Ok outputs
    ∧ criterion outputs (tr_y s) = Ok loss
    ∧ step (tr_optimizer s)
           (backward loss (zero_grad (tr_optimizer s) (tr_model s))) = Ok m'
    ∧ tr_model s' = m'
    ∧ tr_outputs s' = Some outputs
    ∧ tr_loss s' = Some loss
    ∧ tr_epoch s' = Some epoch
    ∧ tr_X s' = tr_X s ∧ tr_y s' = tr_y s
    ∧ tr_optimizer s' = tr_optimizer s
    ∧ tr_calls s' = tr_calls s ++ iteration_calls epoch
    ∧ tr_stdout s'
      = tr_stdout s ++ (if ((epoch + 1) mod 20 =? 0)%nat
                        then [((epoch + 1)%nat, l_value loss)] else []).

(** The values of [epoch + 1] for which a loss line is due. *)
Definition printed_epochs (epochs : list nat) : list nat :=
  filter (fun n => (n mod 20)%nat = O) (map (fun e => (e + 1)%nat) epochs).

Definition is_step (c : call) : bool :=
  match c with CStep => true | _ => false end.
End Train.
Arguments tape F : clear implicits.
Arguments out_tensor F : clear implicits.
Arguments loss_tensor F : clear implicits.
Arguments SGD F : clear implicits.
Arguments trainer F : clear implicits.
End Train.

(** ** Python values, [len] and indexing *)

Module Py.
Import NN.
Section Py.
Context {F : Type}.

(** The objects the cells bind to names. *)
Inductive value : Type :=
| VNone
| VInt (n : Z)
| VStr (s : string)
| VSize (dims : list nat)
| VLib (name : string)
| VClass (name : string)
| VTuple (a b : value)
| VArray (a : list Z)
| VITensor0 (v : Z)
| VITensor1 (t : list Z)
| VITensor2 (t : list (list Z))
| VFTensor0 (v : F)
| VFTensor1 (t : vec F)
| VFTensor2 (t : matrix F)
| VLeaf (v : F) (requires_grad : bool) (grad : option F)
| VMoved (device : string) (t : value)
| VDevice (device : string)
| VModel (m : SimpleNN F)
| VCriterion
| VOptimizer (lr : F)
| VDataset (X y : value)
| VDataLoader (dataset : value) (batch_size : nat) (shuffle : bool)
| VLayer (descr : string).

(** An integer index into a sequence of [n] items: negative indices count
    from the end, anything outside [-n .. n-1] raises [IndexError]. *)
Definition norm_index (n : nat) (idx : Z) : res nat :=
  if ((0 <=? idx) && (idx <? Z.of_nat n))%Z then Ok (Z.to_nat idx)
  else if ((- Z.of_nat n <=? idx) && (idx <? 0))%Z
       then Ok (Z.to_nat (Z.of_nat n + idx))
       else Err IndexError.

Definition item {A : Type} (l : list A) (idx : Z) : res A :=
  let* i := norm_index (length l) idx in
  match l !! i with
  | Some a => Ok a
  | None => Err IndexError
  end.

(** [len(v)]. *)
Fixpoint py_len (v : value) : res nat :=
  match v with
  | VArray a => Ok (length a)
  | VITensor1 t => Ok (length t)
  | VITensor2 t => Ok (length t)
  | VFTensor1 t => Ok (length t)
  | VFTensor2 t => Ok (length t)
  | VSize dims => Ok (length dims)
  | VTuple _ _ => Ok 2%nat
  | VStr s => Ok (String.length s)
  | VMoved _ t => py_len t
  | VDataset X _ => py_len X
  | _ => Err TypeError
  end.

(** [v[idx]] for an integer [idx]. *)
Fixpoint py_getitem (v : value) (idx : Z) : res value :=
  match v with
  | VArray a => let* x := item a idx in Ok (VInt x)
  | VITensor1 t => let* x := item t idx in Ok (VITensor0 x)
  | VITensor2 t => let* x := item t idx in Ok (VITensor1 x)
  | VFTensor1 t => let* x := item t idx in Ok (VFTensor0 x)
  | VFTensor2 t => let* x := item t idx in Ok (VFTensor1 x)
  | VSize dims => let* x := item dims idx in Ok (VInt (Z.of_nat x))
  | VTuple a b => item [a; b] idx
  | VStr s =>
      let* c := item (String.list_ascii_of_string s) idx in Ok (VStr (String c ""))
  | VITensor0 _ | VFTensor0 _ | VLeaf _ _ _ => Err IndexError
  | VMoved d t => let* x := py_getitem t idx in Ok (VMoved d x)
  | VDataset X y =>
      let* a := py_getitem X idx in
      let* b := py_getitem y idx in
      Ok (VTuple a b)
  | _ => Err TypeError
  end.

(** NumPy arrays and tensors of rank 1 or 2, on any device. *)
Fixpoint is_array (v : value) : bool :=
  match v with
  | VArray _ | VITensor1 _ | VITensor2 _ | VFTensor1 _ | VFTensor2 _ => true
  | VMoved _ t => is_array t
  | _ => false
  end.

(** *** [CustomDataset] (cell 21) *)

(** [__init__] stores its two arguments. *)
Definition CustomDataset (X y : value) : value := VDataset X y.

(** [__len__]: [return len(self.X)]. *)
Definition CustomDataset_len (X y : value) : res nat := py_len X.

(** [__getitem__]: [return self.X[idx], self.y[idx]]. *)
Definition CustomDataset_getitem (X y : value) (idx : Z) : res value :=
  let* a := py_getitem X idx in
  let* b := py_getitem y idx in
  Ok (VTuple a b).
End Py.
Arguments value F : clear implicits.
End Py.

(** ** Saving and loading ([torch.save], [torch.load]) *)

(** What the cells need of a serialization format: a file holds a [blob],
    [pickle] produces one from a state dictionary and [unpickle] reads one
    back, or fails. *)
Class Pickler (F : Type) : Type := {
  blob : Type;
  pickle : gmap string (NN.ptensor F) → blob;
  unpickle : blob → option (gmap string (NN.ptensor F))
}.

(** The format of [torch.save] for a state dictionary, as far as the
    cells depend on it: one record per key, and for each tensor its sizes
    and its elements, row after row, in one flat storage. *)
Module Storage.
Import NN.
Section Storage.
Context {F : Type}.

Record saved : Type := mkSaved {
  sizes : list nat;
  storage : list F
}.

Definition columns (t : matrix F) : nat :=
  match t with
  | [] => 0%nat
  | r :: _ => length r
  end.

Definition save_tensor (t : ptensor F) : saved :=
  match t with
  | PMat x => mkSaved [length x; columns x] (concat x)
  | PVec v => mkSaved [length v] v
  end.

(** The rows of a storage read with the sizes [rows] and [cols]. *)
Fixpoint rows_of (rows cols : nat) (s : list F) : list (list F) :=
  match rows with
  | O => []
  | S n => take cols s :: rows_of n cols (drop cols s)
  end.

(** A record whose storage does not have the number of elements its
    sizes ask for does not load. *)
Definition load_tensor (s : saved) : option (ptensor F) :=
  match sizes s with
  | [n] =>
      if (length (storage s) =? n)%nat then Some (PVec (storage s)) else None
  | [rows; cols] =>
      if (length (storage s) =? rows * cols)%nat
      then Some (PMat (rows_of rows cols (storage s))) else None
  | _ => None
  end.

Fixpoint load_entries (l : list (string * saved))
  : option (list (string * ptensor F)) :=
  match l with
  | [] => Some []
  | (k, s) :: rest =>
      match load_tensor s, load_entries rest with
      | Some t, Some r => Some ((k, t) :: r)
      | _, _ => None
      end
  end.

Definition save_dict (sd : gmap string (ptensor F)) : list (string * saved) :=
  map (fun kt => (kt.1, save_tensor kt.2)) (map_to_list sd).

(** The entries are put into the dictionary in the order of the file, a
    later one replacing an earlier one of the same key. *)
Definition load_dict (b : list (string * saved))
  : option (gmap string (ptensor F)) :=
  match load_entries b with
  | Some l => Some (foldl (fun m kt => <[kt.1 := kt.2]> m) ∅ l)
  | None => None
  end.

(** A matrix all of whose rows have the length of the first. *)
Definition rectangular (t : ptensor F) : Prop :=
  match t with
  | PMat x => Forall (fun r => length r = columns x) x
  | PVec _ => True
  end.
End Storage.
Arguments saved F : clear implicits.
End Storage.

Definition Pickler_storage {F : Type} : Pickler F :=
  {| blob := list (string * Storage.saved F);
     pickle := Storage.save_dict;
     unpickle := Storage.load_dict |}.

(** ** The notebook *)

Module Notebook.
Import NN Train Py.
Section Notebook.
Context {F : Type} `{Scalar F} `{Pickler F}.

(** What a cell prints: a line is a sequence of text, values and
    formatted numbers. *)
Inductive piece : Type :=
| PText (s : string)
| PVal (v : value F)
| PNat (n : nat)
| PFixed4 (v : F).

Definition line : Type := list piece.

Inductive io_event : Type :=
| FileWrite (path : string)
| FileRead (path : string).

(** The kernel and its surroundings: the global namespace, the files,
    the paths that cannot be opened for writing, the printed output and
    the file operations made so far. *)
Record world : Type := mkWorld {
  ns : gmap string (value F);
  fs : gmap string blob;
  read_only : gset string;
  stdout : list line;
  io : list io_event
}.

(** What the notebook takes from outside: the two availability queries
    and the values drawn by [torch.rand], [torch.randn] and the three
    calls of [SimpleNN()]. *)
Record env : Type := mkEnv {
  mps_available : bool;
  cuda_available : bool;
  rand_draw : nat → nat → F;
  randn_draw : nat → nat → F;
  init_cell16 : init_draw F;
  init_cell18 : init_draw F;
  init_cell23 : init_draw F
}.

Definition bind (name : string) (v : value F) (w : world) : world :=
  mkWorld (<[name := v]> (ns w)) (fs w) (read_only w) (stdout w) (io w).

Definition print (l : line) (w : world) : world :=
  mkWorld (ns w) (fs w) (read_only w) (stdout w ++ [l]) (io w).

(** Reading a global name. *)
Definition lookup_name (name : string) (w : world) : res (value F) :=
  match ns w !! name with
  | Some v => Ok v
  | None => Err (NameError name)
  end.

(** Reading an attribute of the library bound to a global name. *)
Definition use_lib (name lib : string) (w : world) : res unit :=
  let* v := lookup_name name w in
  match v with
  | VLib l => if String.eqb l lib then Ok tt else Err AttributeError
  | _ => Err AttributeError
  end.

(** [SimpleNN.__init__]: [super(SimpleNN, self)] reads the global
    [SimpleNN], and the three layers are built from the global [nn], both
    looked up when the class is called. *)
Definition SimpleNN_init (d : init_draw F) (w : world) : res (SimpleNN F) :=
  let* _ := lookup_name "SimpleNN" w in
  let* _ := use_lib "nn" "torch.nn" w in
  Ok (SimpleNN_new d).

(** Calling the class [SimpleNN]. *)
Definition call_SimpleNN (d : init_draw F) (w : world) : res (SimpleNN F) :=
  let* c := lookup_name "SimpleNN" w in
  match c with
  | VClass name =>
      if String.eqb name "SimpleNN" then SimpleNN_init d w else Err TypeError
  | _ => Err TypeError
  end.

Definition as_model (v : value F) : res (SimpleNN F) :=
  match v with
  | VModel m => Ok m
  | _ => Err AttributeError
  end.

Definition as_matrix (v : value F) : res (matrix F) :=
  match v with
  | VFTensor2 t => Ok t
  | _ => Err TypeError
  end.

(** [torch.save(obj, path)] opens [path] for writing, which raises when
    the path cannot be written, and [torch.load(path)] opens it for
    reading. *)
Definition torch_save (sd : gmap string (ptensor F)) (path : string) (w : world)
  : res world :=
  if bool_decide (path ∈ read_only w) then Err PermissionError
  else Ok (mkWorld (ns w) (<[path := pickle sd]> (fs w)) (read_only w)
                   (stdout w) (io w ++ [FileWrite path])).

Definition torch_load (path : string) (w : world)
  : res (gmap string (ptensor F) * world) :=
  match fs w !! path with
  | None => Err FileNotFoundError
  | Some b =>
      match unpickle b with
      | None => Err UnpicklingError
      | Some sd =>
          Ok (sd, mkWorld (ns w) (fs w) (read_only w) (stdout w)
                          (io w ++ [FileRead path]))
      end
  end.

(** *** The code cells, in the order of the notebook *)

(** Cell 6: a first tensor. *)
Definition cell_tensor (w : world) : res world :=
  let w := bind "torch" (VLib "torch") w in
  let w := bind "np" (VLib "numpy") w in
  let x := VITensor1 [1; 2; 3; 4; 5] in
  let w := bind "x" x w in
  let w := print [PText "Tensor: "; PVal x] w in
  let w := print [PText "Type: "; PVal (VStr "torch.int64")] w in
  let w := print [PText "Shape: "; PVal (VSize [5%nat])] w in
  Ok w.

(** The line feed of the string literals. *)
Definition nl : string := String (Ascii.ascii_of_nat 10) "".

(** Cell 8: ways to create tensors. *)
Definition cell_create (e : env) (w : world) : res world :=
  let* _ := lookup_name "np" w in
  let w := bind "array" (VArray [1; 2; 3]) w in
  let* _ := lookup_name "torch" w in
  let w := bind "tensor_from_array" (VITensor1 [1; 2; 3]) w in
  let w := bind "zeros" (VFTensor2 (tabulate2 3 2 (fun _ _ => fzero))) w in
  let w := bind "ones" (VFTensor2 (tabulate2 2 2 (fun _ _ => fone))) w in
  let w := bind "random" (VFTensor2 (tabulate2 2 3 (rand_draw e))) w in
  let* v1 := lookup_name "tensor_from_array" w in
  let w := print [PText "From array:"; PVal v1] w in
  let* v2 := lookup_name "zeros" w in
  let w := print [PText (nl +:+ "Zeros:" +:+ nl); PVal v2] w in
  let* v3 := lookup_name "ones" w in
  let w := print [PText (nl +:+ "Ones:" +:+ nl); PVal v3] w in
  let* v4 := lookup_name "random" w in
  let w := print [PText (nl +:+ "Random:" +:+ nl); PVal v4] w in
  Ok w.

(** [c.reshape(rows, cols)] on a 2-D integer tensor. *)
Definition reshape (rows cols : nat) (c : list (list Z)) : res (list (list Z)) :=
  let flat := concat c in
  if (length flat =? rows * cols)%nat
  then Ok (tabulate2 rows cols (fun i j => nth (i * cols + j) flat 0))
  else Err RuntimeError.

(** Cell 10: arithmetic and reshaping. *)
Definition cell_arith (w : world) : res world :=
  let* _ := lookup_name "torch" w in
  let w := bind "a" (VITensor1 IntTensor.a) w in
  let w := bind "b" (VITensor1 IntTensor.b) w in
  let* s := IntTensor.tensor_add IntTensor.a IntTensor.b in
  let w := print [PText "Addition:"; PVal (VITensor1 s)] w in
  let* p := IntTensor.tensor_mul IntTensor.a IntTensor.b in
  let w := print [PText "Multiplication:"; PVal (VITensor1 p)] w in
  let* m := IntTensor.matmul IntTensor.a IntTensor.b in
  let w := print [PText "Matrix Multiplication:"; PVal (VITensor0 m)] w in
  let c := [[1; 2]; [3; 4]] in
  let w := bind "c" (VITensor2 c) w in
  let w := print [PText (nl +:+ "Original:" +:+ nl); PVal (VITensor2 c)] w in
  let* r := reshape 1 4 c in
  let w := print [PText "Reshaped:"; PVal (VITensor2 r)] w in
  Ok w.

(** [t.to(device)]. *)
Definition to_device (device : string) (t : value F) : value F :=
  if bool_decide (device = "cpu") then t else VMoved device t.

(** Cell 12: the device. *)
Definition cell_device (e : env) (w : world) : res world :=
  let* _ := lookup_name "torch" w in
  let d := Device.select_device (mps_available e) (cuda_available e) in
  let w := bind "device" (VDevice d) w in
  let w := print [PText "Using device: "; PVal (VDevice d)] w in
  let w := bind "x" (VITensor1 [1; 2; 3]) w in
  let w := bind "x" (to_device d (VITensor1 [1; 2; 3])) w in
  Ok w.

Definition grad_value (g : option F) : value F :=
  match g with
  | Some v => VFTensor0 v
  | None => VNone
  end.

(** Cell 14: autograd. *)
Definition cell_autograd (w : world) : res world :=
  let* _ := lookup_name "torch" w in
  let w := bind "x" (VLeaf (fconst 2) true None) w in
  let w := bind "y" (VLeaf (fconst 3) true None) w in
  let w := bind "z" (VFTensor0 (Autograd.value (Autograd.z_node 2 3))) w in
  let grads := Autograd.autograd_cell 2 3 in
  let w := bind "x" (VLeaf (fconst 2) true (grads !! "x")) w in
  let w := bind "y" (VLeaf (fconst 3) true (grads !! "y")) w in
  let w := print [PText "dz/dx: "; PVal (grad_value (grads !! "x"))] w in
  let w := print [PText "dz/dy: "; PVal (grad_value (grads !! "y"))] w in
  Ok w.

(** Cell 16: the class [SimpleNN] and a first instance. *)
Definition cell_model (e : env) (w : world) : res world :=
  let w := bind "nn" (VLib "torch.nn") w in
  let w := bind "SimpleNN" (VClass "SimpleNN") w in
  let* m := call_SimpleNN (init_cell16 e) w in
  let w := bind "model" (VModel m) w in
  let w := print [PVal (VModel m)] w in
  Ok w.

Definition loss_line (p : nat * F) : line :=
  [PText "Epoch ["; PNat p.1; PText "/100], Loss: "; PFixed4 p.2].

Definition opt_matrix (o : option (out_tensor F)) : value F :=
  match o with
  | Some t => VFTensor2 (o_value t)
  | None => VNone
  end.

Definition opt_loss (o : option (loss_tensor F)) : value F :=
  match o with
  | Some t => VFTensor0 (l_value t)
  | None => VNone
  end.

Definition opt_epoch (o : option nat) : value F :=
  match o with
  | Some n => VInt (Z.of_nat n)
  | None => VNone
  end.

(** Cell 18: data, model, loss, optimizer and the training loop; the
    names the cell assigns are bound to what the loop leaves in them. *)
Definition cell_train (e : env) (w : world) : res world :=
  let w := bind "optim" (VLib "torch.optim") w in
  let* _ := lookup_name "torch" w in
  let* _ := call_SimpleNN (init_cell18 e) w in
  let* _ := lookup_name "nn" w in
  let* _ := lookup_name "optim" w in
  let* t := training_cell (randn_draw e) (init_cell18 e) in
  let w := bind "X" (VFTensor2 (tr_X t)) w in
  let w := bind "y" (VFTensor2 (tr_y t)) w in
  let w := bind "model" (VModel (tr_model t)) w in
  let w := bind "criterion" VCriterion w in
  let w := bind "optimizer" (VOptimizer (lr (tr_optimizer t))) w in
  let w := bind "epoch" (opt_epoch (tr_epoch t)) w in
  let w := bind "outputs" (opt_matrix (tr_outputs t)) w in
  let w := bind "loss" (opt_loss (tr_loss t)) w in
  Ok (mkWorld (ns w) (fs w) (read_only w)
              (stdout w ++ map loss_line (tr_stdout t)) (io w)).

(** Cell 21: the dataset class, a dataset and a loader. *)
Definition cell_dataset (w : world) : res world :=
  let w := bind "Dataset" (VClass "Dataset") w in
  let w := bind "DataLoader" (VClass "DataLoader") w in
  let w := bind "CustomDataset" (VClass "CustomDataset") w in
  let* X := lookup_name "X" w in
  let* y := lookup_name "y" w in
  let d := CustomDataset X y in
  let w := bind "dataset" d w in
  let w := bind "dataloader" (VDataLoader d 32 true) w in
  Ok w.

(** Cell 23: save the parameters, build a new model, load them into it. *)
Definition cell_save_load (e : env) (w : world) : res world :=
  let* _ := lookup_name "torch" w in
  let* v := lookup_name "model" w in
  let* m := as_model v in
  let* w := torch_save (state_dict m) "model.pth" w in
  let* fresh := call_SimpleNN (init_cell23 e) w in
  let w := bind "loaded_model" (VModel fresh) w in
  let* (sd, w) := torch_load "model.pth" w in
  let* loaded := load_state_dict fresh sd in
  let w := bind "loaded_model" (VModel loaded) w in
  let w := print [PText "<All keys matched successfully>"] w in
  Ok w.

Definition set_training (flag : bool) (m : SimpleNN F) : SimpleNN F :=
  {| layer1 := layer1 m; layer2 := layer2 m; relu := relu m;
     training := flag |}.

(** Cell 25: training and evaluation modes. *)
Definition cell_modes (w : world) : res world :=
  let* v := lookup_name "model" w in
  let* m := as_model v in
  let m := set_training true m in
  let w := bind "model" (VModel m) w in
  let m := set_training false m in
  let w := bind "model" (VModel m) w in
  let* _ := lookup_name "torch" w in
  let* xv := lookup_name "X" w in
  let* X := as_matrix xv in
  let* out := SimpleNN_forward m X in
  let w := bind "test_output" (VFTensor2 out) w in
  Ok w.

(** Cell 27: common layers. *)
Definition cell_layers (w : world) : res world :=
  let* _ := lookup_name "nn" w in
  let w := bind "conv" (VLayer "Conv2d(3, 64, kernel_size=3)") w in
  let w := bind "pool" (VLayer "MaxPool2d(2)") w in
  let w := bind "dropout" (VLayer "Dropout(0.5)") w in
  let w := bind "batch_norm" (VLayer "BatchNorm2d(64)") w in
  let w := bind "relu" (VLayer "ReLU()") w in
  let w := bind "sigmoid" (VLayer "Sigmoid()") w in
  Ok w.

(** Running cells one after the other; a cell that raises stops the
    run. *)
Fixpoint run (cells : list (world → res world)) (w : world) : res world :=
  match cells with
  | [] => Ok w
  | c :: rest => let* w' := c w in run rest w'
  end.

(** The cells up to the training cell, and the whole notebook. *)
Definition before_dataset (e : env) : list (world → res world) :=
  [cell_tensor; cell_create e; cell_arith; cell_device e; cell_autograd;
   cell_model e; cell_train e].

Definition notebook (e : env) : list (world → res world) :=
  before_dataset e ++ [cell_dataset; cell_save_load e; cell_modes; cell_layers].

(** [w'] differs from [w] at most in the bindings of [names], and not
    in the files, in what can be written or in the file operations. *)
Definition same_names (names : list string) (w w' : world) : Prop :=
  ∀ n, n ∉ names → lookup_name n w' = lookup_name n w.

Definition frame (names : list string) (w w' : world) : Prop :=
  fs w' = fs w ∧ read_only w' = read_only w ∧ io w' = io w
  ∧ same_names names w w'.

(** The value a run leaves in a name, if the run ends and binds it. *)
Definition bound (name : string) (r : res world) : option (value F) :=
  match r with
  | Ok w => ns w !! name
  | Err _ => None
  end.

(** A fresh kernel started in a directory whose files are [files], of
    which the paths [locked] cannot be written. *)
Definition fresh_kernel (files : gmap string blob) (locked : gset string)
  : world :=
  mkWorld ∅ files locked [] [].
End Notebook.
Arguments world F {_}.
Arguments env F : clear implicits.
End Notebook.

(** ** Concrete inputs *)

(** Small inputs over the rationals on which the cells are evaluated. *)
Module Examples.
Import NN Train Py Notebook.

(** One input row and no target. *)
Definition one_input : value Q := VFTensor2 [[1%Q]].
Definition no_target : value Q := VFTensor2 [].

(** Three input rows and three targets. *)
Definition three_inputs : value Q := VFTensor2 [[1; 2]; [3; 4]; [5; 6]]%Q.
Definition three_targets : value Q := VFTensor2 [[3]; [7]; [11]]%Q.

Definition const_draw (q : Q) : nat → nat → Q := fun _ _ => q.

(** Every parameter drawn as [0], except the weight of layer 1. *)
Definition init_with_w1 (q : Q) : init_draw Q :=
  {| draw_w1 := fun _ _ => q; draw_b1 := fun _ => 0%Q;
     draw_w2 := fun _ _ => 0%Q; draw_b2 := fun _ => 0%Q |}.

Definition zero_init : init_draw Q := init_with_w1 0.

(** A batch of two rows of ten features. *)
Definition two_rows : matrix Q :=
  [[1; 2; 3; 4; 5; 6; 7; 8; 9; 10]; [0; 0; 0; 0; 0; 0; 0; 0; 0; 0]]%Q.

(** An environment whose draws are constants. *)
Definition const_env (x : Q) (w1 : Q) : env Q :=
  {| mps_available := true;
     cuda_available := false;
     rand_draw := const_draw 0;
     randn_draw := const_draw x;
     init_cell16 := zero_init;
     init_cell18 := init_with_w1 w1;
     init_cell23 := zero_init |}.

(** A kernel in which only [X] and [y] are bound, and the same kernel
    with [model] bound as well. *)
Definition small_world : @world Q (@Pickler_storage Q) :=
  bind "y" three_targets
    (bind "X" three_inputs (@fresh_kernel Q (@Pickler_storage Q) ∅ ∅)).

Definition small_world_with_model : @world Q (@Pickler_storage Q) :=
  bind "model" (VModel (SimpleNN_new zero_init)) small_world.

(** A kernel in which [torch], [nn], [SimpleNN] and a model drawn by [d]
    are bound, started in an empty directory in which the paths [locked]
    cannot be written. *)
Definition kernel_with_model (d : init_draw Q) (locked : gset string)
  : @world Q (@Pickler_storage Q) :=
  bind "model" (VModel (SimpleNN_new d))
    (bind "SimpleNN" (VClass "SimpleNN")
       (bind "nn" (VLib "torch.nn")
          (bind "torch" (VLib "torch")
             (@fresh_kernel Q (@Pickler_storage Q) ∅ locked)))).

(** A kernel started in a directory that already holds a file
    ["model.pth"], with no entry in it. *)
Definition with_stale_file (w : @world Q (@Pickler_storage Q))
  : @world Q (@Pickler_storage Q) :=
  mkWorld (ns w) (<["model.pth" := []]> (fs w)) (read_only w) (stdout w)
          (io w).

(** The same kernel after [del nn]. *)
Definition kernel_without_nn (d : init_draw Q) : @world Q (@Pickler_storage Q) :=
  bind "model" (VModel (SimpleNN_new d))
    (bind "SimpleNN" (VClass "SimpleNN")
       (bind "torch" (VLib "torch")
          (@fresh_kernel Q (@Pickler_storage Q) ∅ ∅))).
End Examples.

(** ** Reference notions for the properties below *)

(** What autograd is expected to compute, stated without reference to the
    graph traversal. *)
Module AutogradSpec.

(** The leaves of a graph that require grad, by name. *)
Fixpoint tracked {F : Type} (n : @Autograd.node F) : gset string :=
  match n with
  | Autograd.Leaf name _ true => {[name]}
  | Autograd.Leaf _ _ false => ∅
  | Autograd.Pow b _ => tracked b
  | Autograd.Add l r => tracked l ∪ tracked r
  end.

(** [x ^ n] over the rationals. *)
Fixpoint qpow (x : Q) (n : nat) : Q :=
  match n with
  | O => 1%Q
  | S n' => (x * qpow x n')%Q
  end.

(** The value of an expression. *)
Fixpoint eval (n : @Autograd.node Q) : Q :=
  match n with
  | Autograd.Leaf _ v _ => v
  | Autograd.Pow b e => qpow (eval b) e
  | Autograd.Add l r => (eval l + eval r)%Q
  end.

(** The partial derivative of an expression with respect to the tracked
    leaf named [x]: the power rule and the sum rule. *)
Fixpoint deriv (x : string) (n : @Autograd.node Q) : Q :=
  match n with
  | Autograd.Leaf name _ rg =>
      if rg && bool_decide (name = x) then 1%Q else 0%Q
  | Autograd.Pow b e =>
      (inject_Z (Z.of_nat e) * qpow (eval b) (e - 1) * deriv x b)%Q
  | Autograd.Add l r => (deriv x l + deriv x r)%Q
  end.

(** A [.grad] read as a number: [None] counts as zero. *)
Definition grad_or_zero (grads : gmap string Q) (x : string) : Q :=
  default 0%Q (grads !! x).

End AutogradSpec.

(** Integer arithmetic without wrap-around. *)
Module IntTensorSpec.

Definition in_int64 (z : Z) : Prop := - 2 ^ 63 ≤ z < 2 ^ 63.

(** The dot product over the integers. *)
Definition dot_exact (a b : list Z) : Z := foldr Z.add 0 (zip_with Z.mul a b).

End IntTensorSpec.

(** The gradients of one loss. *)
Module TrainSpec.
Import NN Train.
Section TrainSpec.
Context {F : Type} `{Scalar F}.

(** The four [.grad] fields of a model, in the order of its parameters. *)
Definition gradients (m : SimpleNN F)
  : option (matrix F) * option (vec F) * option (matrix F) * option (vec F) :=
  (grad (weight (layer1 m)), grad (bias (layer1 m)),
   grad (weight (layer2 m)), grad (bias (layer2 m))).

(** The gradients of [loss] with respect to the four parameters of a
    [SimpleNN], from the tensors saved in its graph. *)
Definition loss_gradients (loss : loss_tensor F)
  : matrix F * vec F * matrix F * vec F :=
  let g := l_graph loss in
  let dout := d_mse (l_input loss) (l_target loss) in
  let dz1 := d_relu (t_a1 g) (d_input 5 dout (t_w2 g)) in
  (d_weight 5 10 dz1 (t_x g), d_bias 5 dz1,
   d_weight 1 5 dout (t_a1 g), d_bias 1 dout).
End TrainSpec.
End TrainSpec.

(** * Properties *)

(** ** Shapes of tensors *)

Section ShapeLemmas.
Context {F : Type} `{Scalar F}.
Import NN Train.

Lemma tabulate_length {A : Type} (n : nat) (f : nat → A) :
  length (tabulate n f) = n.
Proof. unfold tabulate. by rewrite length_map, length_seq. Qed.

Lemma tabulate2_shape (rows cols : nat) (f : nat → nat → F) :
  has_shape rows cols (tabulate2 rows cols f).
Proof.
  split; [apply tabulate_length|].
  unfold tabulate2, tabulate at 1. apply Forall_map, Forall_forall.
  intros i _. apply tabulate_length.
Qed.

Lemma has_shape_lengths (rows cols : nat) (x : matrix F) :
  has_shape rows cols x → map length x = replicate rows cols.
Proof.
  intros [<- Hall]. induction Hall as [|r x Hr _ IH]; [done|].
  cbn. by rewrite Hr, IH.
Qed.

Lemma has_shape_map (rows cols cols' : nat) (g : vec F → vec F) (x : matrix F) :
  (∀ r, length r = cols → length (g r) = cols') →
  has_shape rows cols x → has_shape rows cols' (map g x).
Proof.
  intros Hg [Hlen Hall]. split; [by rewrite length_map|].
  apply Forall_map. eapply Forall_impl; [exact Hall|]. exact Hg.
Qed.

Lemma has_shape_zip_with (rows cols : nat) (f : F → F → F) (x y : matrix F) :
  has_shape rows cols x → has_shape rows cols y →
  has_shape rows cols (zip_with (zip_with f) x y).
Proof.
  intros [<- Hx] [Hlen Hy]. split.
  - rewrite length_zip_with. lia.
  - clear Hlen. revert y Hy.
    induction Hx as [|r x Hr _ IH]; intros y Hy; [constructor|].
    destruct Hy as [|r' y Hr' Hy]; [constructor|].
    cbn. constructor; [|by apply IH].
    rewrite length_zip_with. lia.
Qed.

Lemma fits_shape (outf inf : nat) (W : matrix F) (r : vec F) :
  has_shape outf inf W → length r = inf → fits W r = true.
Proof.
  intros [_ Hall] Hr. unfold fits. apply forallb_forall.
  intros w Hw. apply Nat.eqb_eq. rewrite Hr.
  rewrite Forall_forall in Hall. symmetry. apply Hall.
  by apply list_elem_of_In.
Qed.

Lemma affine_length (outf : nat) (W : matrix F) (b r : vec F) :
  length W = outf → length b = outf → length (affine W b r) = outf.
Proof.
  intros HW Hb. unfold affine. rewrite length_zip_with, length_map. lia.
Qed.

(** A layer of shape [inf → outf] accepts every batch of rows of length
    [inf] and returns rows of length [outf]. *)
Lemma Linear_forward_ok (inf outf n : nat) (l : Linear F) (x : matrix F) :
  Linear_shape inf outf l → has_shape n inf x →
  Linear_forward l x = Ok (map (affine (data (weight l)) (data (bias l))) x)
  ∧ has_shape n outf (map (affine (data (weight l)) (data (bias l))) x).
Proof.
  intros (_ & _ & HW & Hb) Hx. split.
  - unfold Linear_forward.
    replace (forallb (fits (data (weight l))) x) with true; [done|].
    symmetry. apply forallb_forall. intros r Hr.
    eapply fits_shape; [exact HW|].
    destruct Hx as [_ Hall]. rewrite Forall_forall in Hall.
    by apply Hall, list_elem_of_In.
  - eapply has_shape_map; [|exact Hx].
    intros r _. apply affine_length; [apply HW|exact Hb].
Qed.

Lemma ReLU_forward_shape (n c : nat) (r : ReLU) (x : matrix F) :
  has_shape n c x → has_shape n c (ReLU_forward r x).
Proof.
  intros Hx. unfold ReLU_forward. eapply has_shape_map; [|exact Hx].
  intros v Hv. by rewrite length_map.
Qed.

Lemma same_shape_mat (rows cols : nat) (x y : matrix F) :
  has_shape rows cols x → has_shape rows cols y →
  same_shape (PMat x) (PMat y) = true.
Proof.
  intros Hx Hy. cbn. apply bool_decide_eq_true.
  by rewrite (has_shape_lengths _ _ _ Hx), (has_shape_lengths _ _ _ Hy).
Qed.

Lemma same_shape_vec (x y : vec F) :
  length x = length y → same_shape (PVec x) (PVec y) = true.
Proof. intros Hxy. cbn. by apply Nat.eqb_eq. Qed.
End ShapeLemmas.

(** ** The training loop *)

Section TrainLemmas.
Context {F : Type} `{Scalar F}.
Import NN Train.

Lemma SimpleNN_new_shape (d : init_draw F) : SimpleNN_shape (SimpleNN_new d).
Proof.
  split; (split; [done|split; [done|split]]);
    [apply tabulate2_shape|apply tabulate_length
    |apply tabulate2_shape|apply tabulate_length].
Qed.

Lemma model_call_forward (m : SimpleNN F) (x : matrix F) :
  SimpleNN_forward m x
  = let* o := model_call m x in Ok (o_value o).
Proof.
  unfold SimpleNN_forward, model_call.
  destruct (Linear_forward (layer1 m) x) as [z1|e]; [cbn|done].
  by destruct (Linear_forward (layer2 m) _).
Qed.

Lemma model_call_ok (n : nat) (m : SimpleNN F) (x : matrix F) :
  SimpleNN_shape m → has_shape n 10 x →
  ∃ o, model_call m x = Ok o
       ∧ has_shape n 1 (o_value o)
       ∧ has_shape n 5 (t_a1 (o_graph o))
       ∧ t_x (o_graph o) = x
       ∧ t_w2 (o_graph o) = data (weight (layer2 m)).
Proof.
  intros [H1 H2] Hx. unfold model_call.
  destruct (Linear_forward_ok _ _ _ _ _ H1 Hx) as [-> Hz1]. cbn.
  pose proof (ReLU_forward_shape _ _ (relu m) _ Hz1) as Ha1.
  destruct (Linear_forward_ok _ _ _ _ _ H2 Ha1) as [-> Hout]. cbn.
  eexists. split; [reflexivity|]. cbn. auto.
Qed.

Lemma criterion_ok (n : nat) (o : out_tensor F) (y : matrix F) :
  has_shape n 1 (o_value o) → has_shape n 1 y →
  criterion o y
  = Ok {| l_value := mse (o_value o) y; l_input := o_value o;
          l_target := y; l_graph := o_graph o |}.
Proof.
  intros Ho Hy. unfold criterion, same_dims.
  rewrite bool_decide_eq_true_2; [done|].
  by rewrite (has_shape_lengths _ _ _ Ho), (has_shape_lengths _ _ _ Hy).
Qed.

Lemma zero_grad_shape (opt : SGD F) (m : SimpleNN F) :
  SimpleNN_shape m →
  SimpleNN_shape (zero_grad opt m) ∧ grads_none (zero_grad opt m).
Proof. intros [H1 H2]. split; [split; [apply H1|apply H2]|done]. Qed.

Lemma backward_shape (l : loss_tensor F) (m : SimpleNN F) :
  SimpleNN_shape m → grads_none m →
  SimpleNN_shape (backward l m) ∧ grads_fit (backward l m).
Proof.
  intros [H1 H2] (G1 & G2 & G3 & G4). split.
  - split; [apply H1|apply H2].
  - destruct H1 as (Hi1 & Ho1 & _), H2 as (Hi2 & Ho2 & _).
    unfold grads_fit, backward. cbn.
    rewrite G1, G2, G3, G4, Hi1, Ho1, Hi2, Ho2.
    repeat split; eexists; (split; [reflexivity|]);
      first [apply tabulate2_shape|apply tabulate_length].
Qed.

Lemma step_ok (opt : SGD F) (m : SimpleNN F) :
  SimpleNN_shape m → grads_fit m →
  ∃ m', step opt m = Ok m' ∧ SimpleNN_shape m'
        ∧ training m' = training m ∧ relu m' = relu m.
Proof.
  intros [(Hi1 & Ho1 & HW1 & Hb1) (Hi2 & Ho2 & HW2 & Hb2)].
  intros ((g1 & G1 & S1) & (g2 & G2 & S2) & (g3 & G3 & S3) & (g4 & G4 & S4)).
  unfold step, step_mat, step_vec. rewrite G1, G2, G3, G4.
  rewrite (same_shape_mat _ _ _ _ HW1 S1), (same_shape_mat _ _ _ _ HW2 S3).
  rewrite !same_shape_vec by congruence. cbn.
  eexists. split; [reflexivity|]. split; [|done].
  split; (split; [done|split; [done|split]]); cbn;
    auto using has_shape_zip_with; rewrite length_zip_with; lia.
Qed.

Lemma epoch_body_ok (e : nat) (s : trainer F) :
  train_inv s →
  ∃ s', epoch_body e (set_epoch s e) = Ok s'
        ∧ iteration e s s' ∧ train_inv s'
        ∧ training (tr_model s') = training (tr_model s).
Proof.
  intros (HX & Hy & Hm). unfold epoch_body.
  destruct (model_call_ok _ _ _ Hm HX) as (o & Ho & Hov & _).
  cbn [set_epoch tr_model tr_X]. rewrite Ho. cbn [rbind].
  cbn [set_epoch set_outputs tr_y tr_model tr_optimizer].
  rewrite (criterion_ok _ _ _ Hov Hy). cbn [rbind].
  set (l := {| l_value := _ |}).
  cbn [set_epoch set_outputs set_loss set_model tr_model tr_optimizer].
  destruct (zero_grad_shape (tr_optimizer s) _ Hm) as [Hz Hn].
  destruct (backward_shape l _ Hz Hn) as [Hb Hf].
  destruct (step_ok (tr_optimizer s) _ Hb Hf) as (m' & Hs & Hm' & Ht & _).
  rewrite Hs. cbn [rbind]. cbn in Ht.
  assert (criterion o (tr_y s) = Ok l) as Hl by exact (criterion_ok _ _ _ Hov Hy).
  destruct ((e + 1) mod 20 =? 0)%nat eqn:He;
    (eexists; split; [reflexivity|]; split; [|split; [|cbn; exact Ht]]).
  - exists o, l, m'. unfold iteration_calls. rewrite He.
    cbn -[Nat.modulo]. rewrite <- !app_assoc. by repeat split.
  - split; [exact HX|split; [exact Hy|exact Hm']].
  - exists o, l, m'. unfold iteration_calls. rewrite He.
    cbn -[Nat.modulo]. rewrite <- !app_assoc, app_nil_r. by repeat split.
  - split; [exact HX|split; [exact Hy|exact Hm']].
Qed.

Lemma for_each_app (l1 l2 : list nat) (s : trainer F) :
  for_each (l1 ++ l2) s = let* s' := for_each l1 s in for_each l2 s'.
Proof.
  revert s. induction l1 as [|e l1 IH]; intros s; [done|].
  cbn. destruct (epoch_body e (set_epoch s e)); [apply IH|done].
Qed.

Lemma filter_printed_cons (e : nat) (l : list nat) :
  printed_epochs (e :: l)
  = (if ((e + 1) mod 20 =? 0)%nat then [(e + 1)%nat] else [])
    ++ printed_epochs l.
Proof.
  unfold printed_epochs. cbn [map]. rewrite filter_cons.
  destruct (Nat.eqb_spec ((e + 1) mod 20) 0) as [Heq|Hne];
    case_decide; done.
Qed.

(** The loop never raises from a state that satisfies the invariant, and
    its trace is the concatenation of the iterations'. *)
Lemma for_each_ok (l : list nat) (s : trainer F) :
  train_inv s →
  ∃ s', for_each l s = Ok s' ∧ train_inv s'
        ∧ tr_calls s' = tr_calls s ++ concat (map iteration_calls l)
        ∧ map fst (tr_stdout s') = map fst (tr_stdout s) ++ printed_epochs l
        ∧ training (tr_model s') = training (tr_model s)
        ∧ tr_X s' = tr_X s ∧ tr_y s' = tr_y s.
Proof.
  revert s. induction l as [|e l IH]; intros s Hinv.
  - exists s. cbn. by rewrite !app_nil_r.
  - destruct (epoch_body_ok e s Hinv) as (s1 & Hs1 & Hit & Hinv1 & Ht1).
    destruct (IH s1 Hinv1) as (s' & Hs' & Hinv' & Hc & Hp & Ht & HX & Hy).
    exists s'. cbn [for_each]. rewrite Hs1. cbn [rbind].
    destruct Hit as (o & lo & m' & _ & _ & _ & _ & _ & _ & _ & HX1 & Hy1 & _ & Hc1 & Hp1).
    split; [exact Hs'|]. split; [exact Hinv'|].
    split; [|split; [|split; [|split]]]; try congruence.
    + rewrite Hc, Hc1. cbn [map concat]. by rewrite app_assoc.
    + rewrite Hp, Hp1, filter_printed_cons, map_app, <- app_assoc.
      f_equal. f_equal. by destruct ((e + 1) mod 20 =? 0)%nat.
Qed.

Lemma setup_inv (xdraw : nat → nat → F) (d : init_draw F) :
  train_inv (setup xdraw d).
Proof.
  split; [apply tabulate2_shape|]. split; [|apply SimpleNN_new_shape].
  unfold setup. cbn [tr_y].
  eapply has_shape_map; [|apply tabulate2_shape]. done.
Qed.
End TrainLemmas.

(** ** Tensor arithmetic, device, autograd and the network *)

(** C9.  On [a = [1, 2, 3]] and [b = [4, 5, 6]], [torch.matmul(a, b)] is the
    scalar dot product [1*4 + 2*5 + 3*6 = 32], [a * b] is the tensor
    [[4, 10, 18]], the two results differ (the product tensor is not the
    one-element tensor holding the scalar), and no 64-bit wrap-around
    occurs: the values are those of exact integer arithmetic. *)
Theorem C9_matmul_vs_elementwise :
  IntTensor.matmul IntTensor.a IntTensor.b = Ok (1 * 4 + 2 * 5 + 3 * 6)
  ∧ 1 * 4 + 2 * 5 + 3 * 6 = 32
  ∧ IntTensor.tensor_mul IntTensor.a IntTensor.b = Ok [4; 10; 18]
  ∧ IntTensor.tensor_mul IntTensor.a IntTensor.b = Ok [1 * 4; 2 * 5; 3 * 6]
  ∧ IntTensor.tensor_mul IntTensor.a IntTensor.b ≠ Ok [32].
Proof.
  repeat split; try reflexivity. vm_compute. intros Heq. discriminate Heq.
Qed.

(** C8.  The device snippet is total and picks exactly one device: "mps"
    when MPS is available, otherwise "cuda" when CUDA is available,
    otherwise "cpu". *)
Theorem C8_select_device (mps cuda : bool) :
  ∃ d, Device.select_device mps cuda = d
       ∧ (d = "mps" ∨ d = "cuda" ∨ d = "cpu")
       ∧ (d = "mps" ↔ mps = true)
       ∧ (d = "cuda" ↔ mps = false ∧ cuda = true)
       ∧ (d = "cpu" ↔ mps = false ∧ cuda = false).
Proof.
  eexists. split; [reflexivity|].
  destruct mps, cuda; cbn; repeat split; intros; try discriminate;
    try reflexivity; intuition (try discriminate; auto).
Qed.

(** C2.  With [x = 2.0] and [y = 3.0] tracked, [z = x**2 + y**3] and one
    [z.backward()]: [x.grad] is [4] and [y.grad] is [27], both over the
    rationals and within the integers on which [float32] arithmetic is
    exact (no operation of the cell rounds); for all literals the two
    gradients are [2*x] and [3*y**2], and no other [.grad] is set. *)
Theorem C2_autograd_gradients :
  Autograd.autograd_cell (F := Q) 2 3 !! "x" = Some 4%Q
  ∧ Autograd.autograd_cell (F := Q) 2 3 !! "y" = Some 27%Q
  ∧ Autograd.autograd_cell (F := option Z) 2 3 !! "x" = Some (Some 4)
  ∧ Autograd.autograd_cell (F := option Z) 2 3 !! "y" = Some (Some 27)
  ∧ (∀ xv yv : Q,
       ∃ gx gy, Autograd.autograd_cell (F := Q) xv yv !! "x" = Some gx
                ∧ Autograd.autograd_cell (F := Q) xv yv !! "y" = Some gy
                ∧ (gx == 2 * xv)%Q ∧ (gy == 3 * yv ^ 2)%Q
                ∧ dom (Autograd.autograd_cell (F := Q) xv yv)
                  = ({["x"; "y"]} : gset string)).
Proof.
  split; [by vm_compute|]. split; [by vm_compute|].
  split; [by vm_compute|]. split; [by vm_compute|].
  intros xv yv. unfold Autograd.autograd_cell, Autograd.backward.
  cbn [Autograd.z_node Autograd.x_leaf Autograd.y_leaf Autograd.backward_from].
  unfold Autograd.accumulate. rewrite lookup_empty. cbv beta iota.
  rewrite lookup_insert_ne by done. rewrite lookup_empty. cbv beta iota.
  eexists _, _. split; [by simplify_map_eq|]. split; [by simplify_map_eq|].
  split; [|split].
  - cbn. rewrite !Qred_correct. ring.
  - cbn. rewrite !Qred_correct. ring.
  - rewrite !dom_insert_L, dom_empty_L. set_solver.
Qed.

(** C3.  [SimpleNN.forward(x)] is [layer2(ReLU(layer1(x)))]; the model
    [SimpleNN()] holds exactly the two linear sub-modules [layer1], of shape
    10 to 5, and [layer2], of shape 5 to 1; on a batch of rows of 10
    features each layer acts as its affine map [W r + b] on every row and
    the result has one column. *)
Theorem C3_SimpleNN_forward {F : Type} `{Scalar F}
    (d : NN.init_draw F) (x : matrix F) :
  let m := NN.SimpleNN_new d in
  (∀ m' : NN.SimpleNN F,
     NN.SimpleNN_forward m' x
     = let* h := NN.Linear_forward (NN.layer1 m') x in
       NN.Linear_forward (NN.layer2 m') (NN.ReLU_forward (NN.relu m') h))
  ∧ NN.linear_children m = [NN.layer1 m; NN.layer2 m]
  ∧ NN.Linear_shape 10 5 (NN.layer1 m)
  ∧ NN.Linear_shape 5 1 (NN.layer2 m)
  ∧ (∀ n, NN.has_shape n 10 x →
          NN.SimpleNN_forward m x
          = Ok (map (fun r =>
                  NN.affine (NN.data (NN.weight (NN.layer2 m)))
                            (NN.data (NN.bias (NN.layer2 m)))
                    (map NN.relu1
                       (NN.affine (NN.data (NN.weight (NN.layer1 m)))
                                  (NN.data (NN.bias (NN.layer1 m))) r))) x)
          ∧ ∃ out, NN.SimpleNN_forward m x = Ok out ∧ NN.has_shape n 1 out).
Proof.
  intros m. split; [|split; [|split; [|split]]].
  - intros m'. unfold NN.SimpleNN_forward.
    destruct (NN.Linear_forward (NN.layer1 m') x); [cbn|done].
    by destruct (NN.Linear_forward (NN.layer2 m') _).
  - reflexivity.
  - apply SimpleNN_new_shape.
  - apply SimpleNN_new_shape.
  - intros n Hx.
    destruct (SimpleNN_new_shape d) as [H1 H2]. fold m in H1, H2.
    destruct (Linear_forward_ok _ _ _ _ _ H1 Hx) as [E1 Hz1].
    pose proof (ReLU_forward_shape _ _ (NN.relu m) _ Hz1) as Ha1.
    destruct (Linear_forward_ok _ _ _ _ _ H2 Ha1) as [E2 Hout].
    assert (NN.SimpleNN_forward m x
            = Ok (map (NN.affine (NN.data (NN.weight (NN.layer2 m)))
                                 (NN.data (NN.bias (NN.layer2 m))))
                      (NN.ReLU_forward (NN.relu m)
                         (map (NN.affine (NN.data (NN.weight (NN.layer1 m)))
                                         (NN.data (NN.bias (NN.layer1 m)))) x))))
      as E.
    { unfold NN.SimpleNN_forward. rewrite E1. cbn [rbind]. rewrite E2. done. }
    split.
    + rewrite E. f_equal. unfold NN.ReLU_forward. by rewrite !map_map.
    + eexists. split; [exact E|exact Hout].
Qed.

(** On a batch of two rows the model returns two rows of one element. *)
Lemma C3_SimpleNN_forward_witness :
  NN.has_shape 2 10 Examples.two_rows
  ∧ ∃ out, NN.SimpleNN_forward (NN.SimpleNN_new Examples.zero_init)
             Examples.two_rows = Ok out
           ∧ NN.has_shape 2 1 out.
Proof.
  assert (NN.has_shape 2 10 Examples.two_rows) as Hx.
  { split; [reflexivity|]. repeat constructor. }
  split; [exact Hx|].
  destruct (C3_SimpleNN_forward Examples.zero_init Examples.two_rows)
    as (_ & _ & _ & _ & Hfwd).
  exact (proj2 (Hfwd 2%nat Hx)).
Defined.

(** C1.  The training cell never raises.  Its calls are, for the epochs
    0 to 99 in order, the forward pass, the loss, [zero_grad], [backward]
    and [step], followed by the loss line exactly when [epoch + 1] is a
    multiple of 20: one hundred steps and the lines of epochs 20, 40, 60, 80
    and 100.  Every iteration runs the forward pass on the whole of [X],
    takes the loss against [y] and updates the model by one step on the
    gradients of that loss. *)
Theorem C1_training_loop {F : Type} `{Scalar F}
    (xdraw : nat → nat → F) (d : NN.init_draw F) :
  ∃ s, Train.training_cell xdraw d = Ok s
       ∧ Train.range 100 = seq 0 100
       ∧ Train.tr_calls s = concat (map Train.iteration_calls (Train.range 100))
       ∧ length (List.filter Train.is_step (Train.tr_calls s)) = 100%nat
       ∧ map fst (Train.tr_stdout s) = [20; 40; 60; 80; 100]%nat
       ∧ (∀ e n, Train.CPrint n ∈ Train.iteration_calls e
                 ↔ n = (e + 1)%nat ∧ ((e + 1) mod 20 = 0)%nat)
       ∧ (∀ k, ∃ s_k s_k', Train.train_epochs k xdraw d = Ok s_k
                           ∧ Train.train_epochs (S k) xdraw d = Ok s_k'
                           ∧ Train.iteration k s_k s_k'
                           ∧ Train.tr_X s_k = tabulate2 100 10 xdraw).
Proof.
  destruct (for_each_ok (Train.range 100) _ (setup_inv xdraw d))
    as (s & Hs & _ & Hc & Hp & _).
  exists s. split; [exact Hs|]. split; [reflexivity|].
  split; [exact Hc|]. split; [rewrite Hc; vm_compute; reflexivity|].
  split; [rewrite Hp; vm_compute; reflexivity|]. split.
  - clear. intros e n. unfold Train.iteration_calls. rewrite elem_of_app. split.
    + intros [Hin|Hin].
      * exfalso.
        repeat (apply elem_of_cons in Hin as [Hin|Hin]; [discriminate Hin|]).
        by apply elem_of_nil in Hin.
      * destruct (Nat.eqb_spec ((e + 1) mod 20) 0) as [He|He].
        -- apply list_elem_of_singleton in Hin. clear -Hin He.
           injection Hin as Hn. subst n. by split.
        -- by apply elem_of_nil in Hin.
    + intros [-> He]. right. apply Nat.eqb_eq in He. rewrite He.
      apply list_elem_of_singleton. reflexivity.
  - clear. intros k.
    destruct (for_each_ok (Train.range k) _ (setup_inv xdraw d))
      as (s_k & Hk & Hinv & _ & _ & _ & HX & _).
    destruct (epoch_body_ok k s_k Hinv) as (s_k' & Hb & Hit & _).
    exists s_k, s_k'. split; [exact Hk|]. split; [|split; [exact Hit|exact HX]].
    unfold Train.train_epochs, Train.range. rewrite seq_S, for_each_app.
    fold (Train.range k). rewrite Hk. cbn [rbind Train.for_each Nat.add].
    by rewrite Hb.
Qed.

(** C10.  After any number of iterations of the training loop the model
    still has its four parameters, each of the shape it was created with:
    [layer1] maps 10 features to 5 and [layer2] maps 5 features to 1; the
    sub-modules and the [training] flag are unchanged. *)
Theorem C10_training_preserves_shapes {F : Type} `{Scalar F}
    (k : nat) (xdraw : nat → nat → F) (d : NN.init_draw F) :
  ∃ s, Train.train_epochs k xdraw d = Ok s
       ∧ NN.SimpleNN_shape (Train.tr_model s)
       ∧ map fst (NN.parameters (Train.tr_model s))
         = map fst (NN.parameters (NN.SimpleNN_new d))
       ∧ dom (NN.state_dict (Train.tr_model s))
         = dom (NN.state_dict (NN.SimpleNN_new d))
       ∧ Forall2 (fun p q => NN.same_shape p.2 q.2 = true)
                 (NN.parameters (Train.tr_model s))
                 (NN.parameters (NN.SimpleNN_new d))
       ∧ NN.relu (Train.tr_model s) = NN.relu (NN.SimpleNN_new d)
       ∧ NN.training (Train.tr_model s) = NN.training (NN.SimpleNN_new d).
Proof.
  destruct (for_each_ok (Train.range k) _ (setup_inv xdraw d))
    as (s & Hs & (_ & _ & Hm) & _ & _ & Ht & _).
  exists s. split; [exact Hs|]. split; [exact Hm|]. split; [reflexivity|].
  split; [|split; [|split; [by destruct (NN.relu _)|exact Ht]]].
  - unfold NN.state_dict. by rewrite !dom_insert_L.
  - destruct Hm as [(_ & _ & HW1 & Hb1) (_ & _ & HW2 & Hb2)].
    destruct (SimpleNN_new_shape d) as [(_ & _ & IW1 & Ib1) (_ & _ & IW2 & Ib2)].
    unfold NN.parameters.
    repeat constructor; cbn [snd].
    + exact (same_shape_mat _ _ _ _ HW1 IW1).
    + apply same_shape_vec. congruence.
    + exact (same_shape_mat _ _ _ _ HW2 IW2).
    + apply same_shape_vec. congruence.
Qed.

(** ** The dataset wrapper *)

Section DatasetLemmas.
Context {F : Type}.
Import Py.

Lemma norm_index_in (n : nat) (idx : Z) :
  0 ≤ idx < Z.of_nat n → norm_index n idx = Ok (Z.to_nat idx).
Proof.
  intros [H0 Hn]. unfold norm_index.
  rewrite (proj2 (Z.leb_le 0 idx) H0), (proj2 (Z.ltb_lt idx _) Hn). done.
Qed.

Lemma norm_index_out (n : nat) (idx : Z) :
  Z.of_nat n ≤ idx ∨ idx < - Z.of_nat n → norm_index n idx = Err IndexError.
Proof.
  intros Hout. unfold norm_index.
  destruct (Z.leb_spec 0 idx), (Z.ltb_spec idx (Z.of_nat n)),
    (Z.leb_spec (- Z.of_nat n) idx), (Z.ltb_spec idx 0);
    cbn; try reflexivity; lia.
Qed.

Lemma item_in {A : Type} (l : list A) (idx : Z) :
  0 ≤ idx < Z.of_nat (length l) →
  ∃ a, item l idx = Ok a ∧ l !! Z.to_nat idx = Some a.
Proof.
  intros Hidx. unfold item. rewrite (norm_index_in _ _ Hidx). cbn [rbind].
  destruct (lookup_lt_is_Some_2 l (Z.to_nat idx)) as [a Ha]; [lia|].
  exists a. by rewrite Ha.
Qed.

Lemma item_out {A : Type} (l : list A) (idx : Z) :
  Z.of_nat (length l) ≤ idx ∨ idx < - Z.of_nat (length l) →
  item l idx = Err IndexError.
Proof. intros Hout. unfold item. by rewrite (norm_index_out _ _ Hout). Qed.

(** On an array, an index within [0 .. len - 1] selects an item. *)
Lemma array_getitem_in (v : value F) (n : nat) (idx : Z) :
  is_array v = true → py_len v = Ok n → 0 ≤ idx < Z.of_nat n →
  ∃ a, py_getitem v idx = Ok a.
Proof.
  induction v; intros Harr Hlen Hidx; try discriminate Harr;
    cbn [py_len] in Hlen; cbn [py_getitem];
    try (injection Hlen as <-;
         destruct (item_in _ idx Hidx) as (x & -> & _); cbn; by eexists).
  destruct (IHv Harr Hlen Hidx) as [a ->]. cbn. by eexists.
Qed.

(** On an array, an index outside [-len .. len - 1] raises [IndexError]. *)
Lemma array_getitem_out (v : value F) (n : nat) (idx : Z) :
  is_array v = true → py_len v = Ok n →
  Z.of_nat n ≤ idx ∨ idx < - Z.of_nat n →
  py_getitem v idx = Err IndexError.
Proof.
  induction v; intros Harr Hlen Hout; try discriminate Harr;
    cbn [py_len] in Hlen; cbn [py_getitem];
    try (injection Hlen as <-; by rewrite (item_out _ idx Hout)).
  by rewrite (IHv Harr Hlen Hout).
Qed.
End DatasetLemmas.

(** C5, as amended.  For arrays [X] and [y], [__len__()] is [len(X)], and
    for an index [idx] with [0 <= idx < len(X)] that is also below [len(y)],
    [__getitem__(idx)] is the pair [(X[idx], y[idx])]; the same holds of
    [len(dataset)] and [dataset[idx]]. *)
Theorem C5_dataset_getitem_len {F : Type}
    (X y : Py.value F) (idx : Z) (n m : nat) :
  Py.is_array X = true → Py.is_array y = true →
  Py.py_len X = Ok n → Py.py_len y = Ok m →
  0 ≤ idx < Z.of_nat n → idx < Z.of_nat m →
  ∃ a b, Py.py_getitem X idx = Ok a
         ∧ Py.py_getitem y idx = Ok b
         ∧ Py.CustomDataset_getitem X y idx = Ok (Py.VTuple a b)
         ∧ Py.CustomDataset_len X y = Ok n
         ∧ Py.py_getitem (Py.CustomDataset X y) idx = Ok (Py.VTuple a b)
         ∧ Py.py_len (Py.CustomDataset X y) = Ok n.
Proof.
  intros HX Hy HlenX Hleny Hidx Hm.
  destruct (array_getitem_in X n idx HX HlenX Hidx) as [a Ha].
  destruct (array_getitem_in y m idx Hy Hleny) as [b Hb]; [lia|].
  exists a, b. unfold Py.CustomDataset_getitem, Py.CustomDataset_len, Py.CustomDataset.
  cbn [Py.py_getitem Py.py_len]. rewrite Ha, Hb. by repeat split.
Qed.

(** Index 1 of a dataset of three samples. *)
Lemma C5_dataset_getitem_len_witness :
  Py.CustomDataset_getitem Examples.three_inputs Examples.three_targets 1
  = Ok (Py.VTuple (Py.VFTensor1 [3; 4]%Q) (Py.VFTensor1 [7]%Q))
  ∧ Py.CustomDataset_len Examples.three_inputs Examples.three_targets = Ok 3%nat.
Proof.
  destruct (C5_dataset_getitem_len Examples.three_inputs Examples.three_targets
              1 3 3) as (a & b & Ha & Hb & Hget & Hlen & _);
    [reflexivity|reflexivity|reflexivity|reflexivity|lia|lia|].
  injection Ha as <-. injection Hb as <-. split; [exact Hget|exact Hlen].
Defined.

(** C5 as stated fails: with one input row and no target, index 0 is within
    [0 <= idx < len(X)], yet [__getitem__(0)] raises [IndexError] instead of
    returning a pair. *)
Lemma C5_counterexample :
  Py.CustomDataset_len Examples.one_input Examples.no_target = Ok 1%nat
  ∧ 0 ≤ 0 < Z.of_nat 1
  ∧ Py.CustomDataset_getitem Examples.one_input Examples.no_target 0
    = Err IndexError
  ∧ ¬ ∃ p, Py.CustomDataset_getitem Examples.one_input Examples.no_target 0
           = Ok p.
Proof.
  split; [reflexivity|]. split; [lia|]. split; [reflexivity|].
  intros [p Hp]. discriminate Hp.
Qed.

(** ** The storage format *)

Section StorageLemmas.
Context {F : Type}.
Import NN Storage.

Lemma rows_of_concat (cols : nat) (x : matrix F) :
  Forall (fun r => length r = cols) x →
  rows_of (length x) cols (concat x) = x.
Proof.
  induction 1 as [|r x Hr _ IH]; [reflexivity|].
  cbn [length concat rows_of].
  rewrite take_app_length', drop_app_length' by done. by rewrite IH.
Qed.

Lemma length_concat_rows (cols : nat) (x : matrix F) :
  Forall (fun r => length r = cols) x →
  length (concat x) = (length x * cols)%nat.
Proof.
  induction 1 as [|r x Hr _ IH]; [reflexivity|].
  cbn [length concat]. rewrite length_app, IH, Hr. reflexivity.
Qed.

Lemma load_save_tensor (t : ptensor F) :
  rectangular t → load_tensor (save_tensor t) = Some t.
Proof.
  destruct t as [x|v]; intros Hrect; unfold load_tensor; cbn.
  - rewrite (length_concat_rows _ _ Hrect), Nat.eqb_refl.
    by rewrite (rows_of_concat _ _ Hrect).
  - by rewrite Nat.eqb_refl.
Qed.

Lemma load_entries_saved (l : list (string * ptensor F)) :
  Forall (fun kt => rectangular kt.2) l →
  load_entries (map (fun kt => (kt.1, save_tensor kt.2)) l) = Some l.
Proof.
  induction 1 as [|[k t] l Ht _ IH]; [reflexivity|].
  cbn [map load_entries fst snd]. cbn in Ht.
  by rewrite (load_save_tensor _ Ht), IH.
Qed.

Lemma foldl_insert_reverse (l : list (string * ptensor F))
    (m : gmap string (ptensor F)) :
  foldl (fun m kt => <[kt.1 := kt.2]> m) m (reverse l)
  = foldr (fun kt m => <[kt.1 := kt.2]> m) m l.
Proof.
  induction l as [|kt l IH]; [reflexivity|].
  rewrite reverse_cons, foldl_snoc, IH. reflexivity.
Qed.

Lemma foldl_insert_to_list (sd : gmap string (ptensor F)) :
  foldl (fun m kt => <[kt.1 := kt.2]> m) ∅ (map_to_list sd) = sd.
Proof.
  rewrite <- (reverse_involutive (map_to_list sd)), foldl_insert_reverse.
  change (list_to_map (reverse (map_to_list sd)) = sd).
  rewrite (list_to_map_proper _ (map_to_list sd)).
  - apply list_to_map_to_list.
  - rewrite reverse_Permutation. apply NoDup_fst_map_to_list.
  - apply reverse_Permutation.
Qed.

(** A dictionary of rectangular tensors loads back from what was saved. *)
Lemma storage_round_trip (sd : gmap string (ptensor F)) :
  map_Forall (fun _ t => rectangular t) sd →
  load_dict (save_dict sd) = Some sd.
Proof.
  intros Hsd. unfold load_dict, save_dict.
  rewrite load_entries_saved.
  - by rewrite foldl_insert_to_list.
  - apply map_Forall_to_list in Hsd.
    eapply Forall_impl; [exact Hsd|]. by intros [k t].
Qed.

Lemma has_shape_rectangular (rows cols : nat) (x : matrix F) :
  has_shape rows cols x → rectangular (PMat x).
Proof.
  intros [_ Hrows]. cbn. destruct x as [|r x]; [constructor|].
  cbn. pose proof (Forall_inv Hrows) as Hr. cbn in Hr. by rewrite Hr.
Qed.
End StorageLemmas.

Section StateDictStorage.
Context {F : Type} `{Scalar F}.
Import NN Storage.

Lemma state_dict_rectangular (m : SimpleNN F) :
  SimpleNN_shape m → map_Forall (fun _ t => rectangular t) (state_dict m).
Proof.
  intros [(_ & _ & W1 & _) (_ & _ & W2 & _)]. unfold state_dict.
  apply map_Forall_insert_2; [by eapply has_shape_rectangular|].
  apply map_Forall_insert_2; [exact I|].
  apply map_Forall_insert_2; [by eapply has_shape_rectangular|].
  apply map_Forall_insert_2; [exact I|]. apply map_Forall_empty.
Qed.

(** What [torch.save] writes for the state dictionary of a model is read
    back by [torch.load] as that dictionary. *)
Lemma state_dict_round_trip (m : SimpleNN F) :
  SimpleNN_shape m →
  @unpickle F Pickler_storage (@pickle F Pickler_storage (state_dict m))
  = Some (state_dict m).
Proof. intros Hm. apply storage_round_trip, state_dict_rectangular, Hm. Qed.
End StateDictStorage.

(** ** The notebook as a whole *)

Section NotebookLemmas.
Context {F : Type} `{Scalar F} `{Pickler F}.
Import NN Train Py Notebook.

Lemma lookup_name_bind_eq (n : string) (v : value F) (w : world F) :
  lookup_name n (bind n v w) = Ok v.
Proof. unfold lookup_name, bind. cbn. by rewrite lookup_insert_eq. Qed.

Lemma lookup_name_bind_ne (n n' : string) (v : value F) (w : world F) :
  n ≠ n' → lookup_name n (bind n' v w) = lookup_name n w.
Proof. intros Hne. unfold lookup_name, bind. cbn. by rewrite lookup_insert_ne. Qed.

Lemma lookup_name_print (n : string) (l : line) (w : world F) :
  lookup_name n (print l w) = lookup_name n w.
Proof. reflexivity. Qed.

Lemma lookup_name_files (n : string) (w : world F) fs' ro' out' io' :
  lookup_name n (mkWorld (ns w) fs' ro' out' io') = lookup_name n w.
Proof. reflexivity. Qed.

Lemma torch_save_ok (sd : gmap string (ptensor F)) (path : string)
    (w : world F) :
  path ∉ read_only w →
  torch_save sd path w
  = Ok (mkWorld (ns w) (<[path := pickle sd]> (fs w)) (read_only w)
                (stdout w) (io w ++ [FileWrite path])).
Proof. intros Hw. unfold torch_save. by rewrite bool_decide_eq_false_2. Qed.

Lemma lookup_name_saved (n path : string) (sd : gmap string (ptensor F))
    (w w1 : world F) :
  torch_save sd path w = Ok w1 → lookup_name n w1 = lookup_name n w.
Proof.
  unfold torch_save. destruct (bool_decide (path ∈ read_only w)); [done|].
  intros Heq. by inversion Heq.
Qed.

Lemma call_SimpleNN_files (d : init_draw F) (w : world F) fs' ro' out' io' :
  call_SimpleNN d (mkWorld (ns w) fs' ro' out' io') = call_SimpleNN d w.
Proof. reflexivity. Qed.

Lemma torch_save_locked (sd : gmap string (ptensor F)) (path : string)
    (w : world F) :
  path ∈ read_only w → torch_save sd path w = Err PermissionError.
Proof. intros Hw. unfold torch_save. by rewrite bool_decide_eq_true_2. Qed.

Lemma training_cell_ok (xdraw : nat → nat → F) (d : init_draw F) :
  ∃ t, training_cell xdraw d = Ok t ∧ train_inv t
       ∧ tr_X t = tabulate2 100 10 xdraw
       ∧ training (tr_model t) = true.
Proof.
  unfold training_cell.
  destruct (for_each_ok (range 100) _ (setup_inv xdraw d))
    as (t & Ht & Hinv & _ & _ & Htr & HX & _).
  exists t. split; [exact Ht|]. split; [exact Hinv|]. split; [exact HX|exact Htr].
Qed.

Lemma call_SimpleNN_ok (d : init_draw F) (w : world F) :
  lookup_name "SimpleNN" w = Ok (VClass "SimpleNN") →
  lookup_name "nn" w = Ok (VLib "torch.nn") →
  call_SimpleNN d w = Ok (SimpleNN_new d).
Proof.
  intros Hcls Hnn. unfold call_SimpleNN, SimpleNN_init, use_lib.
  by rewrite Hcls, Hnn.
Qed.

(** Without [nn] the call of the class raises, from within [__init__]. *)
Lemma call_SimpleNN_no_nn (d : init_draw F) (w : world F) :
  lookup_name "SimpleNN" w = Ok (VClass "SimpleNN") →
  ns w !! "nn" = None →
  call_SimpleNN d w = Err (NameError "nn").
Proof.
  intros Hcls Hnn. unfold call_SimpleNN, SimpleNN_init, use_lib.
  rewrite Hcls. cbn [rbind String.eqb Ascii.eqb Bool.eqb].
  unfold lookup_name. by rewrite Hnn.
Qed.

(** The call of the class reads the names [SimpleNN] and [nn] only. *)
Lemma call_SimpleNN_names (d : init_draw F) (w1 w2 : world F) :
  lookup_name "SimpleNN" w1 = lookup_name "SimpleNN" w2 →
  lookup_name "nn" w1 = lookup_name "nn" w2 →
  call_SimpleNN d w1 = call_SimpleNN d w2.
Proof.
  intros Hcls Hnn. unfold call_SimpleNN, SimpleNN_init, use_lib.
  by rewrite Hcls, Hnn.
Qed.

Lemma lookup_name_Ok (n : string) (v : value F) (w : world F) :
  lookup_name n w = Ok v ↔ ns w !! n = Some v.
Proof.
  unfold lookup_name. destruct (ns w !! n); split; intros Heq;
    by inversion Heq.
Qed.

Ltac distinct := let Heq := fresh in intros Heq; discriminate Heq.

(** Lookups of a literal name through the bindings of a cell. *)
Ltac names :=
  repeat first
    [ rewrite lookup_name_bind_eq
    | rewrite lookup_name_bind_ne by distinct
    | rewrite lookup_name_print
    | rewrite lookup_name_files
    | progress cbn [rbind] ].

(** Lookups of a name that is none of the names a cell assigns. *)
Ltac other_names Hn :=
  repeat first
    [ rewrite lookup_name_print
    | rewrite lookup_name_files
    | rewrite lookup_name_bind_ne
        by (intros ->; apply Hn; rewrite !elem_of_cons; tauto) ];
  try reflexivity.

Ltac framed :=
  split; [reflexivity|split; [reflexivity|split; [reflexivity|]]];
  let n := fresh "n" in let Hn := fresh "Hn" in
  intros n Hn; other_names Hn.

Lemma frame_lookup (names : list string) (n : string) (w w' : world F) :
  frame names w w' → n ∉ names → lookup_name n w' = lookup_name n w.
Proof. intros (_ & _ & _ & Hsame). apply Hsame. Qed.

Lemma cell_tensor_ok (w : world F) :
  ∃ w', cell_tensor w = Ok w' ∧ frame ["torch"; "np"; "x"] w w'
        ∧ lookup_name "torch" w' = Ok (VLib "torch")
        ∧ lookup_name "np" w' = Ok (VLib "numpy").
Proof.
  eexists. split; [reflexivity|]. split; [framed|].
  split; names; reflexivity.
Qed.

Lemma cell_create_ok (e : env F) (w : world F) (np torch : value F) :
  lookup_name "np" w = Ok np → lookup_name "torch" w = Ok torch →
  ∃ w', cell_create e w = Ok w'
        ∧ frame ["array"; "tensor_from_array"; "zeros"; "ones"; "random"] w w'.
Proof.
  intros Hnp Htorch. unfold cell_create. rewrite Hnp. names.
  rewrite Htorch. names. eexists. split; [reflexivity|]. framed.
Qed.

Lemma cell_arith_ok (w : world F) (torch : value F) :
  lookup_name "torch" w = Ok torch →
  ∃ w', cell_arith w = Ok w' ∧ frame ["a"; "b"; "c"] w w'.
Proof.
  intros Htorch. unfold cell_arith. rewrite Htorch. names.
  change (IntTensor.tensor_add IntTensor.a IntTensor.b)
    with (Ok (A := IntTensor.tensor1) [5; 7; 9]).
  change (IntTensor.tensor_mul IntTensor.a IntTensor.b)
    with (Ok (A := IntTensor.tensor1) [4; 10; 18]).
  change (IntTensor.matmul IntTensor.a IntTensor.b) with (Ok 32).
  change (reshape 1 4 [[1; 2]; [3; 4]]) with (Ok [[1; 2; 3; 4]]).
  names. eexists. split; [reflexivity|]. framed.
Qed.

Lemma cell_device_ok (e : env F) (w : world F) (torch : value F) :
  lookup_name "torch" w = Ok torch →
  ∃ w', cell_device e w = Ok w' ∧ frame ["device"; "x"] w w'.
Proof.
  intros Htorch. unfold cell_device. rewrite Htorch. names.
  eexists. split; [reflexivity|]. framed.
Qed.

Lemma cell_autograd_ok (w : world F) (torch : value F) :
  lookup_name "torch" w = Ok torch →
  ∃ w', cell_autograd w = Ok w' ∧ frame ["x"; "y"; "z"] w w'.
Proof.
  intros Htorch. unfold cell_autograd. rewrite Htorch. names.
  eexists. split; [reflexivity|]. framed.
Qed.

Lemma cell_model_ok (e : env F) (w : world F) :
  ∃ w', cell_model e w = Ok w' ∧ frame ["nn"; "SimpleNN"; "model"] w w'
        ∧ lookup_name "nn" w' = Ok (VLib "torch.nn")
        ∧ lookup_name "SimpleNN" w' = Ok (VClass "SimpleNN").
Proof.
  unfold cell_model. rewrite call_SimpleNN_ok by (names; reflexivity).
  cbn [rbind]. eexists. split; [reflexivity|]. split; [framed|].
  split; names; reflexivity.
Qed.

Lemma cell_train_ok (e : env F) (w : world F) (torch : value F) :
  lookup_name "torch" w = Ok torch →
  lookup_name "nn" w = Ok (VLib "torch.nn") →
  lookup_name "SimpleNN" w = Ok (VClass "SimpleNN") →
  ∃ w' t, cell_train e w = Ok w'
          ∧ training_cell (randn_draw e) (init_cell18 e) = Ok t
          ∧ frame ["optim"; "X"; "y"; "model"; "criterion"; "optimizer";
                   "epoch"; "outputs"; "loss"] w w'
          ∧ lookup_name "X" w' = Ok (VFTensor2 (tr_X t))
          ∧ lookup_name "y" w' = Ok (VFTensor2 (tr_y t))
          ∧ lookup_name "model" w' = Ok (VModel (tr_model t)).
Proof.
  intros Htorch Hnn Hcls.
  destruct (training_cell_ok (randn_draw e) (init_cell18 e)) as (t & Ht & _).
  unfold cell_train. names. rewrite Htorch. cbn [rbind].
  rewrite call_SimpleNN_ok by (names; assumption).
  names. rewrite Hnn. names. rewrite Ht. cbn [rbind].
  eexists _, t. split; [reflexivity|]. split; [reflexivity|].
  clear Ht. split; [framed|].
  split; [|split]; names; reflexivity.
Qed.

Lemma cell_dataset_ok (w : world F) (X y : value F) :
  lookup_name "X" w = Ok X → lookup_name "y" w = Ok y →
  ∃ w', cell_dataset w = Ok w'
        ∧ frame ["Dataset"; "DataLoader"; "CustomDataset"; "dataset";
                 "dataloader"] w w'
        ∧ lookup_name "dataset" w' = Ok (CustomDataset X y).
Proof.
  intros HX Hy. unfold cell_dataset. names. rewrite HX, Hy. names.
  eexists. split; [reflexivity|]. split; [framed|]. names. reflexivity.
Qed.

Lemma cell_layers_ok (w : world F) (nn : value F) :
  lookup_name "nn" w = Ok nn →
  ∃ w', cell_layers w = Ok w'
        ∧ frame ["conv"; "pool"; "dropout"; "batch_norm"; "relu"; "sigmoid"]
                w w'.
Proof.
  intros Hnn. unfold cell_layers. rewrite Hnn. names.
  eexists. split; [reflexivity|]. framed.
Qed.

Lemma run_app (c1 c2 : list (world F → res (world F))) (w : world F) :
  run (c1 ++ c2) w = let* w' := run c1 w in run c2 w'.
Proof.
  revert w. induction c1 as [|c c1 IH]; intros w; [done|].
  cbn. destruct (c w); [apply IH|done].
Qed.

Lemma SimpleNN_forward_ok (n : nat) (m : SimpleNN F) (x : matrix F) :
  SimpleNN_shape m → has_shape n 10 x →
  ∃ out, SimpleNN_forward m x = Ok out ∧ has_shape n 1 out.
Proof.
  intros Hm Hx. rewrite model_call_forward.
  destruct (model_call_ok n m x Hm Hx) as (o & -> & Ho & _).
  exists (o_value o). by split.
Qed.

(** Loading the state dictionary of a model into another model of the
    same shapes succeeds and copies every parameter. *)
Lemma load_state_dict_ok (fresh m : SimpleNN F) :
  SimpleNN_shape fresh → SimpleNN_shape m →
  ∃ loaded, load_state_dict fresh (state_dict m) = Ok loaded
            ∧ parameters loaded = parameters m
            ∧ state_dict loaded = state_dict m
            ∧ SimpleNN_shape loaded
            ∧ training loaded = training fresh.
Proof.
  intros [(Fi1 & Fo1 & FW1 & Fb1) (Fi2 & Fo2 & FW2 & Fb2)].
  intros [(Mi1 & Mo1 & MW1 & Mb1) (Mi2 & Mo2 & MW2 & Mb2)].
  unfold load_state_dict.
  rewrite bool_decide_eq_true_2
    by (unfold state_dict; by rewrite !dom_insert_L).
  unfold load_mat, load_vec.
  replace (state_dict m !! "layer1.weight")
    with (Some (PMat (data (weight (layer1 m)))))
    by (unfold state_dict; by simplify_map_eq).
  replace (state_dict m !! "layer1.bias")
    with (Some (PVec (data (bias (layer1 m)))))
    by (unfold state_dict; by simplify_map_eq).
  replace (state_dict m !! "layer2.weight")
    with (Some (PMat (data (weight (layer2 m)))))
    by (unfold state_dict; by simplify_map_eq).
  replace (state_dict m !! "layer2.bias")
    with (Some (PVec (data (bias (layer2 m)))))
    by (unfold state_dict; by simplify_map_eq).
  rewrite (same_shape_mat _ _ _ _ FW1 MW1), (same_shape_mat _ _ _ _ FW2 MW2).
  rewrite !same_shape_vec by congruence.
  cbn [rbind]. eexists. split; [reflexivity|].
  split; [reflexivity|]. split; [reflexivity|]. split; [|reflexivity].
  split; (split; [assumption|split; [assumption|split; assumption]]).
Qed.


Lemma cell_modes_ok (w : world F) (torch : value F) (m : SimpleNN F)
    (X : matrix F) :
  lookup_name "model" w = Ok (VModel m) →
  lookup_name "torch" w = Ok torch →
  lookup_name "X" w = Ok (VFTensor2 X) →
  SimpleNN_shape m → has_shape 100 10 X →
  ∃ w', cell_modes w = Ok w' ∧ frame ["model"; "test_output"] w w'
        ∧ lookup_name "model" w'
          = Ok (VModel (set_training false (set_training true m))).
Proof.
  intros Hmodel Htorch HX Hm Hshape.
  destruct (SimpleNN_forward_ok 100 (set_training false (set_training true m))
              X Hm Hshape) as (out & Hout & _).
  unfold cell_modes. rewrite Hmodel. cbn [rbind as_model]. names.
  rewrite Htorch, HX. cbn [rbind as_matrix]. rewrite Hout. cbn [rbind].
  eexists. split; [reflexivity|]. split; [framed|]. names. reflexivity.
Qed.

(** The cells before the save and load cell run from a fresh kernel
    without raising, touch no file, and leave the training cell's [X],
    [y] and [model] in the namespace. *)
Lemma before_save_ok (e : env F) (files : gmap string blob)
    (locked : gset string) :
  ∃ w7 w8 t,
    run (before_dataset e) (fresh_kernel files locked) = Ok w7
    ∧ cell_dataset w7 = Ok w8
    ∧ training_cell (randn_draw e) (init_cell18 e) = Ok t
    ∧ tr_X t = tabulate2 100 10 (randn_draw e)
    ∧ has_shape 100 10 (tr_X t)
    ∧ SimpleNN_shape (tr_model t)
    ∧ lookup_name "torch" w8 = Ok (VLib "torch")
    ∧ lookup_name "nn" w8 = Ok (VLib "torch.nn")
    ∧ lookup_name "SimpleNN" w8 = Ok (VClass "SimpleNN")
    ∧ lookup_name "model" w8 = Ok (VModel (tr_model t))
    ∧ lookup_name "X" w8 = Ok (VFTensor2 (tr_X t))
    ∧ lookup_name "y" w8 = Ok (VFTensor2 (tr_y t))
    ∧ lookup_name "dataset" w8
      = Ok (CustomDataset (VFTensor2 (tr_X t)) (VFTensor2 (tr_y t)))
    ∧ fs w8 = files ∧ read_only w8 = locked ∧ io w8 = [].
Proof.
  unfold before_dataset. cbn [run].
  destruct (cell_tensor_ok (fresh_kernel files locked))
    as (w1 & -> & F1 & T1 & N1).
  cbn [rbind].
  destruct (cell_create_ok e w1 _ _ N1 T1) as (w2 & -> & F2). cbn [rbind].
  assert (lookup_name "torch" w2 = Ok (VLib "torch")) as T2
    by (rewrite (frame_lookup _ _ _ _ F2); [exact T1|compute_done]).
  destruct (cell_arith_ok w2 _ T2) as (w3 & -> & F3). cbn [rbind].
  assert (lookup_name "torch" w3 = Ok (VLib "torch")) as T3
    by (rewrite (frame_lookup _ _ _ _ F3); [exact T2|compute_done]).
  destruct (cell_device_ok e w3 _ T3) as (w4 & -> & F4). cbn [rbind].
  assert (lookup_name "torch" w4 = Ok (VLib "torch")) as T4
    by (rewrite (frame_lookup _ _ _ _ F4); [exact T3|compute_done]).
  destruct (cell_autograd_ok w4 _ T4) as (w5 & -> & F5). cbn [rbind].
  assert (lookup_name "torch" w5 = Ok (VLib "torch")) as T5
    by (rewrite (frame_lookup _ _ _ _ F5); [exact T4|compute_done]).
  destruct (cell_model_ok e w5) as (w6 & -> & F6 & N6 & C6). cbn [rbind].
  assert (lookup_name "torch" w6 = Ok (VLib "torch")) as T6
    by (rewrite (frame_lookup _ _ _ _ F6); [exact T5|compute_done]).
  destruct (cell_train_ok e w6 _ T6 N6 C6)
    as (w7 & t & -> & Ht & F7 & X7 & Y7 & M7). cbn [rbind].
  destruct (training_cell_ok (randn_draw e) (init_cell18 e))
    as (t' & Ht' & Hinv & HXt & _).
  assert (t' = t) as -> by (clear -Ht Ht'; rewrite Ht in Ht'; by inversion Ht').
  clear Ht'.
  destruct Hinv as (HX & _ & Hm).
  destruct (cell_dataset_ok w7 _ _ X7 Y7) as (w8 & D8 & F8 & S8).
  exists w7, w8, t. split; [reflexivity|]. split; [exact D8|].
  split; [exact Ht|]. clear Ht.
  split; [exact HXt|]. split; [exact HX|]. split; [exact Hm|].
  split.
  { rewrite (frame_lookup _ _ _ _ F8) by compute_done.
    rewrite (frame_lookup _ _ _ _ F7) by compute_done. exact T6. }
  split.
  { rewrite (frame_lookup _ _ _ _ F8) by compute_done.
    rewrite (frame_lookup _ _ _ _ F7) by compute_done. exact N6. }
  split.
  { rewrite (frame_lookup _ _ _ _ F8) by compute_done.
    rewrite (frame_lookup _ _ _ _ F7) by compute_done. exact C6. }
  split; [by rewrite (frame_lookup _ _ _ _ F8) by compute_done|].
  split; [by rewrite (frame_lookup _ _ _ _ F8) by compute_done|].
  split; [by rewrite (frame_lookup _ _ _ _ F8) by compute_done|].
  split; [exact S8|].
  destruct F1 as (A1 & R1 & B1 & _), F2 as (A2 & R2 & B2 & _),
    F3 as (A3 & R3 & B3 & _), F4 as (A4 & R4 & B4 & _),
    F5 as (A5 & R5 & B5 & _), F6 as (A6 & R6 & B6 & _),
    F7 as (A7 & R7 & B7 & _), F8 as (A8 & R8 & B8 & _).
  split; [|split].
  - rewrite A8, A7, A6, A5, A4, A3, A2, A1. reflexivity.
  - rewrite R8, R7, R6, R5, R4, R3, R2, R1. reflexivity.
  - rewrite B8, B7, B6, B5, B4, B3, B2, B1. reflexivity.
Qed.

(** When ["model.pth"] cannot be written the save and load cell raises
    what [torch.save] raises. *)
Lemma cell_save_load_locked (e : env F) (w : world F) (torch : value F)
    (m : SimpleNN F) :
  lookup_name "torch" w = Ok torch →
  lookup_name "model" w = Ok (VModel m) →
  "model.pth" ∈ read_only w →
  cell_save_load e w = Err PermissionError.
Proof.
  intros Htorch Hmodel Hlocked. unfold cell_save_load.
  rewrite Htorch, Hmodel. cbn [rbind as_model].
  by rewrite torch_save_locked.
Qed.

Lemma notebook_locked (e : env F) (files : gmap string blob)
    (locked : gset string) :
  "model.pth" ∈ locked →
  run (notebook e) (fresh_kernel files locked) = Err PermissionError.
Proof.
  intros Hlocked.
  destruct (before_save_ok e files locked)
    as (w7 & w8 & t & R7 & D8 & _ & _ & _ & _ & T8 & _ & _ & M8 & _ & _ & _
        & _ & RO8 & _).
  unfold notebook. rewrite run_app, R7. cbn [rbind run]. rewrite D8.
  cbn [rbind].
  rewrite (cell_save_load_locked e w8 _ _ T8 M8); [reflexivity|].
  rewrite RO8. exact Hlocked.
Qed.

Section WithRoundTrip.
(** The format reads back the state dictionary of a model. *)
Hypothesis round_trip :
  ∀ m : SimpleNN F, SimpleNN_shape m →
    unpickle (pickle (state_dict m)) = Some (state_dict m).

Lemma torch_load_saved (m : SimpleNN F) (w : world F) :
  SimpleNN_shape m → "model.pth" ∉ read_only w →
  ∃ w1 w2,
    torch_save (state_dict m) "model.pth" w = Ok w1
    ∧ torch_load "model.pth" w1 = Ok (state_dict m, w2)
    ∧ ns w2 = ns w
    ∧ fs w2 = <["model.pth" := pickle (state_dict m)]> (fs w)
    ∧ io w2 = io w ++ [FileWrite "model.pth"; FileRead "model.pth"].
Proof.
  intros Hm Hw. rewrite torch_save_ok by exact Hw.
  eexists _, _. split; [reflexivity|].
  unfold torch_load. cbn [fs ns stdout io read_only].
  rewrite lookup_insert_eq, round_trip by exact Hm.
  split; [reflexivity|]. split; [reflexivity|]. split; [reflexivity|].
  cbn. by rewrite <- app_assoc.
Qed.

Lemma cell_save_load_ok (e : env F) (w : world F) (torch : value F)
    (m : SimpleNN F) :
  lookup_name "torch" w = Ok torch →
  lookup_name "nn" w = Ok (VLib "torch.nn") →
  lookup_name "SimpleNN" w = Ok (VClass "SimpleNN") →
  lookup_name "model" w = Ok (VModel m) →
  SimpleNN_shape m →
  "model.pth" ∉ read_only w →
  ∃ w' loaded, cell_save_load e w = Ok w'
               ∧ same_names ["loaded_model"] w w'
               ∧ fs w' = <["model.pth" := pickle (state_dict m)]> (fs w)
               ∧ read_only w' = read_only w
               ∧ io w' = io w ++ [FileWrite "model.pth"; FileRead "model.pth"]
               ∧ lookup_name "loaded_model" w' = Ok (VModel loaded)
               ∧ load_state_dict (SimpleNN_new (init_cell23 e)) (state_dict m)
                 = Ok loaded
               ∧ parameters loaded = parameters m
               ∧ state_dict loaded = state_dict m.
Proof.
  intros Htorch Hnn Hcls Hmodel Hm Hw.
  destruct (load_state_dict_ok (SimpleNN_new (init_cell23 e)) m
              (SimpleNN_new_shape _) Hm) as (loaded & Hl & Hp & Hsd & _).
  unfold cell_save_load. rewrite Htorch, Hmodel.
  cbn [as_model rbind]. rewrite torch_save_ok by exact Hw. cbn [rbind].
  rewrite call_SimpleNN_ok by (names; assumption).
  cbn [rbind].
  unfold torch_load at 1. cbn [fs bind].
  rewrite lookup_insert_eq, round_trip by exact Hm. cbn [rbind]. rewrite Hl.
  cbn [rbind]. eexists _, loaded. split; [reflexivity|].
  split; [intros n Hn; other_names Hn|].
  split; [reflexivity|]. split; [reflexivity|].
  split; [cbn; by rewrite <- app_assoc|].
  split; [names; reflexivity|]. by split.
Qed.

(** The whole notebook runs from a fresh kernel without raising when
    ["model.pth"] can be written. *)
Lemma notebook_ok (e : env F) (files : gmap string blob)
    (locked : gset string) :
  "model.pth" ∉ locked →
  ∃ w t loaded,
    run (notebook e) (fresh_kernel files locked) = Ok w
    ∧ training_cell (randn_draw e) (init_cell18 e) = Ok t
    ∧ tr_X t = tabulate2 100 10 (randn_draw e)
    ∧ lookup_name "X" w = Ok (VFTensor2 (tr_X t))
    ∧ lookup_name "y" w = Ok (VFTensor2 (tr_y t))
    ∧ lookup_name "dataset" w
      = Ok (CustomDataset (VFTensor2 (tr_X t)) (VFTensor2 (tr_y t)))
    ∧ lookup_name "model" w
      = Ok (VModel (set_training false (set_training true (tr_model t))))
    ∧ lookup_name "loaded_model" w = Ok (VModel loaded)
    ∧ load_state_dict (SimpleNN_new (init_cell23 e)) (state_dict (tr_model t))
      = Ok loaded
    ∧ parameters loaded = parameters (tr_model t)
    ∧ fs w = <["model.pth" := pickle (state_dict (tr_model t))]> files
    ∧ io w = [FileWrite "model.pth"; FileRead "model.pth"].
Proof.
  intros Hfree.
  destruct (before_save_ok e files locked)
    as (w7 & w8 & t & R7 & D8 & Ht & HXt & HX & Hm & T8 & N8 & C8 & M8 & X8
        & Y8 & S8 & Hfs8 & RO8 & Hio8).
  unfold notebook. rewrite run_app, R7. cbn [rbind run]. rewrite D8.
  cbn [rbind]. clear R7 D8.
  destruct (cell_save_load_ok e w8 _ _ T8 N8 C8 M8 Hm)
    as (w9 & loaded & -> & S9 & Hfs & _ & Hio & L9 & Hload & Hpar & _).
  { rewrite RO8. exact Hfree. }
  cbn [rbind].
  assert (lookup_name "X" w9 = Ok (VFTensor2 (tr_X t))) as X9
    by (rewrite S9 by compute_done; exact X8).
  destruct (cell_modes_ok w9 (VLib "torch") (tr_model t) (tr_X t))
    as (w10 & -> & F10 & M10); try assumption.
  { rewrite S9 by compute_done. exact M8. }
  { rewrite S9 by compute_done. exact T8. }
  cbn [rbind].
  destruct (cell_layers_ok w10 (VLib "torch.nn")) as (w11 & -> & F11).
  { rewrite (frame_lookup _ _ _ _ F10) by compute_done.
    rewrite S9 by compute_done. exact N8. }
  cbn [rbind].
  exists w11, t, loaded. split; [reflexivity|]. split; [exact Ht|].
  split; [exact HXt|]. clear Ht.
  split.
  { rewrite (frame_lookup _ _ _ _ F11) by compute_done.
    rewrite (frame_lookup _ _ _ _ F10) by compute_done. exact X9. }
  split.
  { rewrite (frame_lookup _ _ _ _ F11) by compute_done.
    rewrite (frame_lookup _ _ _ _ F10) by compute_done.
    rewrite S9 by compute_done. exact Y8. }
  split.
  { rewrite (frame_lookup _ _ _ _ F11) by compute_done.
    rewrite (frame_lookup _ _ _ _ F10) by compute_done.
    rewrite S9 by compute_done. exact S8. }
  split.
  { rewrite (frame_lookup _ _ _ _ F11) by compute_done. exact M10. }
  split.
  { rewrite (frame_lookup _ _ _ _ F11) by compute_done.
    rewrite (frame_lookup _ _ _ _ F10) by compute_done. exact L9. }
  split; [exact Hload|]. split; [exact Hpar|].
  destruct F10 as (A10 & _ & B10 & _), F11 as (A11 & _ & B11 & _).
  split.
  - rewrite A11, A10, Hfs, Hfs8. reflexivity.
  - rewrite B11, B10, Hio, Hio8. reflexivity.
Qed.
End WithRoundTrip.
End NotebookLemmas.

Section SaveLoad.
Context {F : Type} `{Scalar F}.
Local Existing Instance Pickler_storage.

End SaveLoad.


Section SharedNamespace.
Context {F : Type} `{Scalar F} `{Pickler F}.
Import NN Train Py Notebook.

Lemma bound_Ok (n : string) (v : value F) (w : world F) :
  lookup_name n w = Ok v → bound n (Ok w) = Some v.
Proof. intros Hn. by apply lookup_name_Ok in Hn. Qed.

(** What the dataset cell binds to [dataset], from what it finds in [X]
    and [y]. *)
Lemma cell_dataset_bound (w : world F) :
  bound "dataset" (cell_dataset w)
  = match lookup_name "X" w, lookup_name "y" w with
    | Ok X, Ok y => Some (CustomDataset X y)
    | _, _ => None
    end.
Proof.
  unfold cell_dataset.
  rewrite !lookup_name_bind_ne by (intros Heq; discriminate Heq).
  destruct (lookup_name "X" w) as [X|]; [|done].
  destruct (lookup_name "y" w) as [y|]; [|done]. cbn [rbind].
  apply bound_Ok. rewrite lookup_name_bind_ne by (intros Heq; discriminate Heq).
  apply lookup_name_bind_eq.
Qed.

(** What the save and load cell binds to [loaded_model], from what it
    finds in [torch] and [model], from whether ["model.pth"] can be
    written, and from the call of [SimpleNN], which reads [SimpleNN] and
    [nn]. *)
Lemma cell_save_load_bound (e : env F) (w : world F) :
  bound "loaded_model" (cell_save_load e w)
  = match lookup_name "torch" w, lookup_name "model" w with
    | Ok _, Ok (VModel m) =>
        if bool_decide ("model.pth" ∈ read_only w) then None
        else
          match call_SimpleNN (init_cell23 e) w with
          | Ok fresh =>
              match unpickle (pickle (state_dict m)) with
              | Some sd =>
                  match load_state_dict fresh sd with
                  | Ok loaded => Some (VModel loaded)
                  | Err _ => None
                  end
              | None => None
              end
          | Err _ => None
          end
    | _, _ => None
    end.
Proof.
  unfold cell_save_load.
  destruct (lookup_name "torch" w) as [torch|]; [|done]. cbn [rbind].
  destruct (lookup_name "model" w) as [v|]; [|done]. cbn [rbind].
  destruct v; cbn [as_model rbind]; try done.
  unfold torch_save.
  destruct (bool_decide ("model.pth" ∈ read_only w)); [done|]. cbn [rbind].
  rewrite call_SimpleNN_files.
  destruct (call_SimpleNN (init_cell23 e) w) as [fresh|]; [|done].
  cbn [rbind].
  unfold torch_load. cbn [fs bind]. rewrite lookup_insert_eq.
  destruct (unpickle (pickle (state_dict m))) as [sd|]; [|done]. cbn [rbind].
  destruct (load_state_dict _ sd) as [loaded|]; [|done]. cbn [rbind].
  apply bound_Ok. rewrite lookup_name_print. apply lookup_name_bind_eq.
Qed.
End SharedNamespace.


(** ** Evaluation on concrete inputs *)

Section Concrete.
Import NN Train Py Notebook Examples.
Local Existing Instance Pickler_storage.

(** With MPS unavailable and CUDA available the device is "cuda". *)
Lemma C8_select_device_witness : Device.select_device false true = "cuda".
Proof.
  destruct (C8_select_device false true) as (d & Hd & _ & _ & Hcuda & _).
  rewrite Hd. apply Hcuda. split; reflexivity.
Defined.

(** The training cell on data and parameters drawn as zero. *)
Lemma C1_training_loop_witness :
  ∃ s, training_cell (const_draw 0) zero_init = Ok s
       ∧ length (List.filter is_step (tr_calls s)) = 100%nat
       ∧ map fst (tr_stdout s) = [20; 40; 60; 80; 100]%nat
       ∧ (CPrint 40 ∈ iteration_calls 39).
Proof.
  destruct (C1_training_loop (const_draw 0) zero_init)
    as (s & Hs & _ & _ & Hsteps & Hlines & Hprint & _).
  exists s. split; [exact Hs|]. split; [exact Hsteps|]. split; [exact Hlines|].
  apply Hprint. split; reflexivity.
Defined.

Lemma drawn_parameters_differ :
  parameters (SimpleNN_new (init_with_w1 1))
  ≠ parameters (SimpleNN_new zero_init).
Proof. vm_compute. intros Heq. discriminate Heq. Qed.




Lemma drawn_inputs_differ :
  tabulate2 100 10 (const_draw 0) ≠ tabulate2 100 10 (const_draw 1).
Proof. vm_compute. intros Heq. discriminate Heq. Qed.

(** The save and load cell in two kernels that differ only in the
    parameters of [model]. *)
Lemma loaded_models_differ :
  bound "loaded_model"
    (cell_save_load (const_env 0 0) (kernel_with_model (init_with_w1 0) ∅))
  ≠ bound "loaded_model"
      (cell_save_load (const_env 0 0) (kernel_with_model (init_with_w1 1) ∅)).
Proof.
  destruct (cell_save_load_ok state_dict_round_trip (const_env 0 0)
              (kernel_with_model (init_with_w1 0) ∅) (VLib "torch")
              (SimpleNN_new (init_with_w1 0)))
    as (wA & lA & -> & _ & _ & _ & _ & LA & _ & PA & _);
    [reflexivity|reflexivity|reflexivity|reflexivity
    |apply SimpleNN_new_shape|apply not_elem_of_empty|].
  destruct (cell_save_load_ok state_dict_round_trip (const_env 0 0)
              (kernel_with_model (init_with_w1 1) ∅) (VLib "torch")
              (SimpleNN_new (init_with_w1 1)))
    as (wB & lB & -> & _ & _ & _ & _ & LB & _ & PB & _);
    [reflexivity|reflexivity|reflexivity|reflexivity
    |apply SimpleNN_new_shape|apply not_elem_of_empty|].
  rewrite (bound_Ok _ _ _ LA), (bound_Ok _ _ _ LB).
  intros Heq. injection Heq as Heq. apply drawn_parameters_differ.
  rewrite <- PB, <- Heq, PA. reflexivity.
Qed.

End Concrete.


(** * Further properties *)

(** ** Autograd on any expression *)

Section AutogradLemmas.
Import Autograd AutogradSpec.

Lemma accumulate_dom {F : Type} {SF : Scalar F} (name : string) (g : F)
    (grads : gmap string F) :
  dom (accumulate name g grads) = dom grads ∪ {[name]}.
Proof.
  unfold accumulate. destruct (grads !! name); rewrite dom_insert_L; set_solver.
Qed.

Lemma accumulate_other {F : Type} {SF : Scalar F} (name x : string) (g : F)
    (grads : gmap string F) :
  x ≠ name → accumulate name g grads !! x = grads !! x.
Proof.
  intros Hne. unfold accumulate.
  destruct (grads !! name); by rewrite lookup_insert_ne.
Qed.

Lemma fpow_qpow (x : Q) (n : nat) : (fpow x n == qpow x n)%Q.
Proof.
  induction n as [|n IH]; [cbn; apply Qred_correct|].
  destruct n as [|n].
  - cbn. ring.
  - change (fpow x (S (S n))) with (fmul x (fpow x (S n))).
    change (qpow x (S (S n))) with (x * qpow x (S n))%Q.
    cbn [fmul Scalar_Q]. rewrite Qred_correct, IH. reflexivity.
Qed.

Lemma qpow_comp (x y : Q) (n : nat) : (x == y)%Q → (qpow x n == qpow y n)%Q.
Proof.
  intros Hxy. induction n as [|n IH]; [reflexivity|].
  cbn [qpow]. by apply Qmult_comp.
Qed.

Lemma value_eval (n : @node Q) : (value n == eval n)%Q.
Proof.
  induction n as [name v rg|b IH e|l IHl r IHr]; cbn [value eval].
  - reflexivity.
  - rewrite fpow_qpow. by apply qpow_comp.
  - cbn [fadd Scalar_Q]. rewrite Qred_correct. by rewrite IHl, IHr.
Qed.

Lemma grad_or_zero_accumulate (name x : string) (g : Q) (grads : gmap string Q) :
  (grad_or_zero (accumulate name g grads) x
   == grad_or_zero grads x + (if bool_decide (name = x) then g else 0))%Q.
Proof.
  unfold grad_or_zero. case_bool_decide as Hx.
  - subst x. unfold accumulate. destruct (grads !! name) as [old|].
    + rewrite lookup_insert_eq. cbn. apply Qred_correct.
    + rewrite lookup_insert_eq. cbn. ring.
  - rewrite accumulate_other by congruence. ring.
Qed.

Lemma backward_from_deriv (n : @node Q) (x : string) :
  ∀ (g1 g2 : Q) (grads1 grads2 : gmap string Q),
    (g1 == g2)%Q →
    (grad_or_zero grads1 x == grad_or_zero grads2 x)%Q →
    (grad_or_zero (backward_from n g1 grads1) x
     == grad_or_zero grads2 x + g2 * deriv x n)%Q.
Proof.
  induction n as [name v rg|b IH e|l IHl r IHr]; intros g1 g2 grads1 grads2 Hg Hgr.
  - destruct rg; cbn [backward_from deriv andb].
    + rewrite grad_or_zero_accumulate, Hgr.
      case_bool_decide; rewrite ?Hg; ring.
    + rewrite Hgr. ring.
  - cbn [backward_from deriv].
    rewrite (IH _ (g2 * (inject_Z (Z.of_nat e) * qpow (eval b) (e - 1)))%Q
               grads1 grads2); [ring| |exact Hgr].
    cbn [fmul Scalar_Q]. rewrite !Qred_correct.
    unfold of_nat. cbn [fconst Scalar_Q]. rewrite Qred_correct.
    rewrite fpow_qpow, (qpow_comp _ _ _ (value_eval b)), Hg. reflexivity.
  - cbn [backward_from deriv].
    rewrite (IHr g1 g2 _ (backward_from l g1 grads1) Hg); [|reflexivity].
    rewrite (IHl g1 g2 grads1 grads2 Hg Hgr). ring.
Qed.
End AutogradLemmas.

(** X1.  For every expression built from scalars with [**] and [+],
    [backward] gives [.grad] exactly to the leaves of the graph that require
    grad, and leaves the [.grad] of every other name as it was. *)
Theorem X1_backward_touches_tracked_leaves {F : Type} {SF : Scalar F}
    (z : @Autograd.node F) (grads : gmap string F) :
  dom (Autograd.backward z grads) = dom grads ∪ AutogradSpec.tracked z
  ∧ ∀ x, x ∉ AutogradSpec.tracked z →
         Autograd.backward z grads !! x = grads !! x.
Proof.
  unfold Autograd.backward. generalize (fone (F := F)) as g. revert grads.
  induction z as [name v rg|b IH e|l IHl r IHr]; intros grads g.
  - destruct rg; cbn [Autograd.backward_from AutogradSpec.tracked].
    + split; [apply accumulate_dom|].
      intros x Hx. apply accumulate_other. set_solver.
    + split; [set_solver|done].
  - cbn [Autograd.backward_from AutogradSpec.tracked]. apply IH.
  - cbn [Autograd.backward_from AutogradSpec.tracked].
    destruct (IHl grads g) as [Dl Ol].
    destruct (IHr (Autograd.backward_from l g grads) g) as [Dr Or].
    split.
    + rewrite Dr, Dl. set_solver.
    + intros x Hx. rewrite Or, Ol; set_solver.
Qed.

(** An untracked leaf and an unrelated name keep no gradient. *)
Lemma X1_backward_touches_tracked_leaves_witness :
  Autograd.backward (F := Q)
    (Autograd.Add (Autograd.Pow (Autograd.Leaf "x" 2%Q true) 2)
                  (Autograd.Leaf "c" 5%Q false)) ∅ !! "c" = None.
Proof.
  destruct (X1_backward_touches_tracked_leaves (F := Q)
              (Autograd.Add (Autograd.Pow (Autograd.Leaf "x" 2%Q true) 2)
                            (Autograd.Leaf "c" 5%Q false)) ∅) as [_ Hother].
  rewrite Hother; [reflexivity|]. vm_compute. set_solver.
Defined.

(** X2.  Over the rationals, one [z.backward()] from cleared gradients
    leaves in the [.grad] of every name the partial derivative of [z] with
    respect to that leaf (power rule and sum rule; a leaf that occurs
    several times collects the sum over its occurrences), and the value of
    [z] is the value of the expression. *)
Theorem X2_backward_is_the_derivative (z : @Autograd.node Q) (x : string) :
  (AutogradSpec.grad_or_zero (Autograd.backward z ∅) x
   == AutogradSpec.deriv x z)%Q
  ∧ (Autograd.value z == AutogradSpec.eval z)%Q.
Proof.
  split; [|apply value_eval].
  unfold Autograd.backward.
  rewrite (backward_from_deriv z x fone 1%Q ∅ ∅); [|reflexivity|reflexivity].
  unfold AutogradSpec.grad_or_zero. rewrite lookup_empty. cbn. ring.
Qed.


(** ** Integer tensors *)

Section IntTensorLemmas.
Import IntTensor IntTensorSpec.

Lemma wrap64_range (z : Z) : in_int64 (wrap64 z).
Proof.
  unfold in_int64, wrap64.
  pose proof (Z.mod_pos_bound (z + 2 ^ 63) (2 ^ 64) ltac:(lia)). lia.
Qed.

Lemma wrap64_small (z : Z) : in_int64 z → wrap64 z = z.
Proof.
  unfold in_int64, wrap64. intros Hz.
  rewrite Z.mod_small by lia. lia.
Qed.

Lemma wrap64_add_l (x y : Z) : wrap64 (wrap64 x + y) = wrap64 (x + y).
Proof.
  unfold wrap64. f_equal.
  replace ((x + 2 ^ 63) mod 2 ^ 64 - 2 ^ 63 + y + 2 ^ 63)
    with ((x + 2 ^ 63) mod 2 ^ 64 + y) by lia.
  rewrite Zplus_mod_idemp_l. f_equal. lia.
Qed.

Lemma wrap64_add (x y : Z) : wrap64 (wrap64 x + wrap64 y) = wrap64 (x + y).
Proof.
  rewrite wrap64_add_l, (Z.add_comm x), wrap64_add_l. f_equal. lia.
Qed.

Lemma add64_comm (x y : Z) : add64 x y = add64 y x.
Proof. unfold add64. f_equal. lia. Qed.

Lemma mul64_comm (x y : Z) : mul64 x y = mul64 y x.
Proof. unfold mul64. f_equal. lia. Qed.

Lemma zip_with_comm {A B : Type} (f : A → A → B) (a b : list A) :
  (∀ x y, f x y = f y x) → zip_with f a b = zip_with f b a.
Proof.
  intros Hf. revert b. induction a as [|x a IH]; intros [|y b]; cbn; try done.
  by rewrite Hf, IH.
Qed.

Lemma zip_with_range (f : Z → Z → Z) (a b : list Z) :
  (∀ x y, in_int64 (f x y)) → Forall in_int64 (zip_with f a b).
Proof.
  intros Hf. revert b. induction a as [|x a IH]; intros [|y b]; cbn;
    constructor; auto.
Qed.

Lemma broadcast2_comm (f : Z → Z → Z) (a b : tensor1) :
  (∀ x y, f x y = f y x) → broadcast2 f a b = broadcast2 f b a.
Proof.
  intros Hf. unfold broadcast2. rewrite (Nat.eqb_sym (length b)).
  destruct (Nat.eqb_spec (length a) (length b)) as [Heq|Hne].
  - f_equal. by apply zip_with_comm.
  - destruct a as [|x [|x' a]], b as [|y [|y' b]]; cbn [length] in Hne;
      try (exfalso; lia); cbv beta iota;
      first [ reflexivity
            | f_equal; apply map_ext; intros; apply Hf ].
Qed.

Lemma broadcast2_range (f : Z → Z → Z) (a b r : tensor1) :
  (∀ x y, in_int64 (f x y)) → broadcast2 f a b = Ok r → Forall in_int64 r.
Proof.
  intros Hf. unfold broadcast2.
  destruct (length a =? length b)%nat.
  - intros [= <-]. by apply zip_with_range.
  - destruct a as [|x [|x' a]], b as [|y [|y' b]]; intros [= <-];
      repeat constructor; try apply Hf; apply Forall_map, Forall_forall;
      intros; apply Hf.
Qed.

Lemma foldl_add64 (l : list Z) (acc : Z) :
  foldl add64 (wrap64 acc) (map wrap64 l) = wrap64 (acc + foldr Z.add 0 l).
Proof.
  revert acc. induction l as [|x l IH]; intros acc; cbn [map foldl foldr].
  - f_equal. lia.
  - unfold add64 at 2. rewrite wrap64_add, IH. f_equal. lia.
Qed.

Lemma zip_with_mul64 (a b : list Z) :
  zip_with mul64 a b = map wrap64 (zip_with Z.mul a b).
Proof.
  revert b. induction a as [|x a IH]; intros [|y b]; cbn; try done.
  by rewrite IH.
Qed.
End IntTensorLemmas.

(** X3.  [a + b] and [a * b] on 1-D tensors raise [RuntimeError] exactly
    when the two sizes differ and neither is 1; otherwise the result has
    the size of [b] when [a] has one element and the size of [a] if not. *)
Theorem X3_broadcast_sizes (f : Z → Z → Z) (a b : IntTensor.tensor1) :
  (IntTensor.broadcast2 f a b = Err RuntimeError
   ↔ length a ≠ length b ∧ length a ≠ 1%nat ∧ length b ≠ 1%nat)
  ∧ ∀ r, IntTensor.broadcast2 f a b = Ok r →
         length r = if (length a =? 1)%nat then length b else length a.
Proof.
  unfold IntTensor.broadcast2.
  destruct (Nat.eqb_spec (length a) (length b)) as [Heq|Hne].
  - split; [split; [discriminate|intros [Hne _]; contradiction]|].
    intros r [= <-]. rewrite length_zip_with.
    destruct (length a =? 1)%nat; lia.
  - destruct a as [|x [|x' a]], b as [|y [|y' b]]; cbn [length] in *;
      try (exfalso; lia); cbv beta iota;
      (split;
       [split; [try discriminate; try (intros _; lia)
               |try (intros (_ & H1 & H2); exfalso; lia); try reflexivity]
       |]);
      try (intros r [= <-]; cbn; rewrite ?length_map; reflexivity);
      try (intros r Hr; discriminate Hr).
Qed.

(** Sizes 3 and 2 cannot be broadcast; sizes 1 and 3 give size 3. *)
Lemma X3_broadcast_sizes_witness :
  IntTensor.tensor_add [1; 2; 3] [4; 5] = Err RuntimeError
  ∧ ∃ r, IntTensor.tensor_mul [2] [4; 5; 6] = Ok r ∧ length r = 3%nat.
Proof.
  split.
  - apply (X3_broadcast_sizes IntTensor.add64 [1; 2; 3] [4; 5]). cbn. lia.
  - exists [8; 10; 12]. split; [reflexivity|].
    apply (X3_broadcast_sizes IntTensor.mul64 [2] [4; 5; 6]). reflexivity.
Defined.

(** X4.  [a + b] and [a * b] do not depend on the order of the operands,
    also when one of them is broadcast, and every element of a result is an
    [int64]. *)
Theorem X4_elementwise_commutative (a b : IntTensor.tensor1) :
  IntTensor.tensor_add a b = IntTensor.tensor_add b a
  ∧ IntTensor.tensor_mul a b = IntTensor.tensor_mul b a
  ∧ (∀ r, IntTensor.tensor_add a b = Ok r → Forall IntTensorSpec.in_int64 r)
  ∧ (∀ r, IntTensor.tensor_mul a b = Ok r → Forall IntTensorSpec.in_int64 r).
Proof.
  unfold IntTensor.tensor_add, IntTensor.tensor_mul.
  split; [apply broadcast2_comm, add64_comm|].
  split; [apply broadcast2_comm, mul64_comm|].
  split; intros r; apply broadcast2_range; intros x y; apply wrap64_range.
Qed.

(** The sum of [[1, 2, 3]] and [[4, 5, 6]] holds three [int64] values. *)
Lemma X4_elementwise_commutative_witness :
  Forall IntTensorSpec.in_int64 [5; 7; 9].
Proof.
  destruct (X4_elementwise_commutative IntTensor.a IntTensor.b)
    as (_ & _ & Hadd & _).
  apply Hadd. reflexivity.
Defined.

(** X5.  [torch.matmul] of two 1-D tensors of the same size is their dot
    product reduced to 64 bits, and the dot product itself when that is an
    [int64]; it does not depend on the order of the operands; on tensors of
    different sizes it raises [RuntimeError]. *)
Theorem X5_matmul_dot_product (a b : IntTensor.tensor1) :
  (length a = length b →
   IntTensor.matmul a b = Ok (IntTensor.wrap64 (IntTensorSpec.dot_exact a b))
   ∧ (IntTensorSpec.in_int64 (IntTensorSpec.dot_exact a b) →
      IntTensor.matmul a b = Ok (IntTensorSpec.dot_exact a b)))
  ∧ (length a ≠ length b → IntTensor.matmul a b = Err RuntimeError)
  ∧ IntTensor.matmul a b = IntTensor.matmul b a.
Proof.
  assert (length a = length b →
          IntTensor.matmul a b
          = Ok (IntTensor.wrap64 (IntTensorSpec.dot_exact a b))) as Hdot.
  { intros Hlen. unfold IntTensor.matmul.
    rewrite (proj2 (Nat.eqb_eq _ _) Hlen). f_equal.
    rewrite zip_with_mul64.
    change 0 with (IntTensor.wrap64 0) at 1.
    rewrite foldl_add64. reflexivity. }
  split; [|split].
  - intros Hlen. split; [exact (Hdot Hlen)|].
    intros Hsmall. rewrite (Hdot Hlen). f_equal. by apply wrap64_small.
  - intros Hne. unfold IntTensor.matmul.
    by rewrite (proj2 (Nat.eqb_neq _ _) Hne).
  - unfold IntTensor.matmul. rewrite (Nat.eqb_sym (length b)).
    destruct (length a =? length b)%nat; [|reflexivity].
    by rewrite (zip_with_comm IntTensor.mul64 a b mul64_comm).
Qed.

(** The dot product of the cell, and a product of sizes 3 and 2. *)
Lemma X5_matmul_dot_product_witness :
  IntTensor.matmul [1; 2; 3] [4; 5; 6] = Ok 32
  ∧ IntTensor.matmul [1; 2; 3] [4; 5] = Err RuntimeError.
Proof.
  split.
  - destruct (X5_matmul_dot_product [1; 2; 3] [4; 5; 6]) as (Hsame & _ & _).
    destruct (Hsame eq_refl) as [_ Hexact]. apply Hexact.
    unfold IntTensorSpec.in_int64. cbn. lia.
  - destruct (X5_matmul_dot_product [1; 2; 3] [4; 5]) as (_ & Hdiff & _).
    apply Hdiff. cbn. lia.
Defined.


(** ** Reshaping *)

Section ReshapeLemmas.

Lemma tabulate_S {A : Type} (n : nat) (f : nat → A) :
  tabulate (S n) f = f O :: tabulate n (fun i => f (S i)).
Proof.
  unfold tabulate. cbn [seq map]. f_equal.
  rewrite <- fmap_S_seq. by rewrite <- list_fmap_compose.
Qed.

Lemma tabulate_ext {A : Type} (n : nat) (f g : nat → A) :
  (∀ i, f i = g i) → tabulate n f = tabulate n g.
Proof. intros Hfg. unfold tabulate. by apply map_ext. Qed.

Lemma tabulate_nth_take {A : Type} (d : A) (n : nat) (l : list A) :
  (n ≤ length l)%nat → tabulate n (fun j => nth j l d) = take n l.
Proof.
  revert l. induction n as [|n IH]; intros l Hn; [done|].
  destruct l as [|x l]; [cbn in Hn; lia|].
  rewrite tabulate_S. cbn [nth take]. f_equal. apply IH. cbn in Hn. lia.
Qed.

Lemma nth_drop {A : Type} (d : A) (n k : nat) (l : list A) :
  nth (n + k) l d = nth k (drop n l) d.
Proof.
  revert l. induction n as [|n IH]; intros l; [done|].
  destruct l as [|x l]; [by destruct k|]. cbn. apply IH.
Qed.

(** Cutting a list of [rows * cols] items into rows of [cols] items keeps
    the items and their order. *)
Lemma tabulate2_chunks {A : Type} (d : A) (rows cols : nat) (flat : list A) :
  length flat = (rows * cols)%nat →
  concat (tabulate2 rows cols (fun i j => nth (i * cols + j) flat d)) = flat.
Proof.
  revert flat. induction rows as [|rows IH]; intros flat Hlen.
  - by destruct flat.
  - unfold tabulate2. rewrite tabulate_S. cbn [concat].
    rewrite (tabulate_ext cols _ (fun j => nth j flat d)) by done.
    rewrite tabulate_nth_take by lia.
    rewrite <- (take_drop cols flat) at 2. f_equal.
    rewrite <- (IH (drop cols flat)) by (rewrite length_drop; lia).
    unfold tabulate2. f_equal. apply tabulate_ext. intros i.
    apply tabulate_ext. intros j.
    rewrite <- nth_drop. f_equal. lia.
Qed.
End ReshapeLemmas.




(** ** More on the training cell *)

Section TrainingMore.
Context {F : Type} `{Scalar F}.
Import NN Train TrainSpec Py.

(** Two consecutive prefixes of the loop and the iteration between them. *)
Lemma train_epochs_S (k : nat) (xdraw : nat → nat → F) (d : init_draw F) :
  ∃ s_k s_k', train_epochs k xdraw d = Ok s_k
              ∧ train_epochs (S k) xdraw d = Ok s_k'
              ∧ iteration k s_k s_k'
              ∧ train_inv s_k ∧ train_inv s_k'
              ∧ tr_X s_k = tabulate2 100 10 xdraw
              ∧ tr_y s_k = map (fun r => [fmul (fsum r) (fconst 0.1)])
                               (tabulate2 100 10 xdraw).
Proof.
  destruct (for_each_ok (range k) _ (setup_inv xdraw d))
    as (s_k & Hk & Hinv & _ & _ & _ & HX & Hy).
  destruct (epoch_body_ok k s_k Hinv) as (s_k' & Hb & Hit & Hinv' & _).
  exists s_k, s_k'. split; [exact Hk|].
  split; [|split; [exact Hit|split; [exact Hinv|split; [exact Hinv'|]]]].
  - unfold train_epochs, range. rewrite seq_S, for_each_app.
    fold (range k). rewrite Hk. cbn [rbind for_each Nat.add]. by rewrite Hb.
  - split; [exact HX|exact Hy].
Qed.

Lemma criterion_value (o : out_tensor F) (y : matrix F) (l : loss_tensor F) :
  criterion o y = Ok l →
  l_value l = mse (o_value o) y ∧ l_input l = o_value o
  ∧ l_target l = y ∧ l_graph l = o_graph o.
Proof.
  unfold criterion. destruct (same_dims (o_value o) y); [|discriminate].
  intros [= <-]. by repeat split.
Qed.

Lemma model_call_value (m : SimpleNN F) (x : matrix F) (o : out_tensor F) :
  model_call m x = Ok o → SimpleNN_forward m x = Ok (o_value o).
Proof. intros Ho. rewrite model_call_forward, Ho. reflexivity. Qed.

(** [step] changes no [.grad]. *)
Lemma step_gradients (opt : SGD F) (m m' : SimpleNN F) :
  step opt m = Ok m' → gradients m' = gradients m.
Proof.
  unfold step, step_mat, step_vec, gradients.
  destruct m as [[i1 o1 [w1 gw1] [b1 gb1]] [i2 o2 [w2 gw2] [b2 gb2]] r t].
  cbn [layer1 layer2 weight bias grad data].
  destruct gw1 as [g1|]; [destruct (same_shape _ (PMat g1)); [|discriminate]|];
    cbn [rbind];
    (destruct gb1 as [g2|]; [destruct (same_shape _ (PVec g2)); [|discriminate]|]);
    cbn [rbind];
    (destruct gw2 as [g3|]; [destruct (same_shape _ (PMat g3)); [|discriminate]|]);
    cbn [rbind];
    (destruct gb2 as [g4|]; [destruct (same_shape _ (PVec g4)); [|discriminate]|]);
    cbn [rbind]; intros [= <-]; reflexivity.
Qed.

(** One [backward] from cleared gradients stores the gradients of its
    loss. *)
Lemma backward_fresh_gradients (opt : SGD F) (loss : loss_tensor F)
    (m : SimpleNN F) :
  SimpleNN_shape m →
  gradients (backward loss (zero_grad opt m))
  = (Some (loss_gradients loss).1.1.1, Some (loss_gradients loss).1.1.2,
     Some (loss_gradients loss).1.2, Some (loss_gradients loss).2).
Proof.
  intros [(Hi1 & Ho1 & _) (Hi2 & Ho2 & _)].
  unfold gradients, backward, zero_grad, loss_gradients, acc_mat, acc_vec, clear.
  cbn [layer1 layer2 weight bias grad data in_features out_features fst snd].
  by rewrite Hi1, Ho1, Hi2, Ho2.
Qed.
End TrainingMore.

(** X7.  The loop never assigns [X] or [y]: after any number of iterations
    [X] is the batch that was drawn and every target is [0.1] times the sum
    of the features of its row; the dataset over them has 100 samples, and
    sample [idx] is row [idx] with that target. *)
Theorem X7_targets_follow_inputs {F : Type} `{Scalar F}
    (k : nat) (xdraw : nat → nat → F) (d : NN.init_draw F) (idx : Z) :
  ∃ s, Train.train_epochs k xdraw d = Ok s
       ∧ Train.tr_X s = tabulate2 100 10 xdraw
       ∧ Train.tr_y s
         = map (fun r => [fmul (fsum r) (fconst 0.1)]) (Train.tr_X s)
       ∧ Py.CustomDataset_len (Py.VFTensor2 (Train.tr_X s))
                              (Py.VFTensor2 (Train.tr_y s)) = Ok 100%nat
       ∧ (0 ≤ idx < 100 →
          Py.CustomDataset_getitem (Py.VFTensor2 (Train.tr_X s))
                                   (Py.VFTensor2 (Train.tr_y s)) idx
          = Ok (Py.VTuple
                  (Py.VFTensor1 (tabulate 10 (xdraw (Z.to_nat idx))))
                  (Py.VFTensor1
                     [fmul (fsum (tabulate 10 (xdraw (Z.to_nat idx))))
                           (fconst 0.1)]))).
Proof.
  destruct (for_each_ok (Train.range k) _ (setup_inv xdraw d))
    as (s & Hs & _ & _ & _ & _ & HX & Hy).
  exists s. split; [exact Hs|]. split; [exact HX|].
  split; [rewrite Hy, HX; reflexivity|].
  rewrite HX, Hy. cbn [Train.setup Train.tr_X Train.tr_y].
  unfold Py.CustomDataset_len, Py.CustomDataset_getitem.
  cbn [Py.py_len Py.py_getitem].
  split; [f_equal; apply (tabulate2_shape 100 10 xdraw)|].
  intros Hidx.
  assert (tabulate2 100 10 xdraw !! Z.to_nat idx
          = Some (tabulate 10 (xdraw (Z.to_nat idx)))) as Hrow.
  { unfold tabulate2, tabulate at 1. rewrite list_lookup_fmap.
    rewrite lookup_seq_lt by lia. reflexivity. }
  unfold Py.item. rewrite length_map, (proj1 (tabulate2_shape 100 10 xdraw)).
  rewrite norm_index_in by lia. cbn [rbind].
  rewrite list_lookup_fmap, Hrow. reflexivity.
Qed.

(** Sample 3 of the data before training. *)
Lemma X7_targets_follow_inputs_witness :
  ∃ s, Train.train_epochs 0 (Examples.const_draw 1) Examples.zero_init = Ok s
       ∧ Py.CustomDataset_getitem (Py.VFTensor2 (Train.tr_X s))
                                  (Py.VFTensor2 (Train.tr_y s)) 3
         = Ok (Py.VTuple (Py.VFTensor1 [1; 1; 1; 1; 1; 1; 1; 1; 1; 1]%Q)
                         (Py.VFTensor1 [1%Q])).
Proof.
  destruct (X7_targets_follow_inputs 0 (Examples.const_draw 1)
              Examples.zero_init 3) as (s & Hs & _ & _ & _ & Hitem).
  exists s. split; [exact Hs|]. rewrite Hitem by lia. reflexivity.
Defined.

(** X8.  The loss an iteration prints and leaves in [loss] is the loss of
    the parameters as they were before that iteration's [step]: the
    mean squared error of the forward pass of the model the iteration
    started with.  [outputs] holds that forward pass and [epoch] the
    iteration's index. *)
Theorem X8_loss_precedes_update {F : Type} `{Scalar F}
    (k : nat) (xdraw : nat → nat → F) (d : NN.init_draw F) :
  ∃ s_k s_k' out,
    Train.train_epochs k xdraw d = Ok s_k
    ∧ Train.train_epochs (S k) xdraw d = Ok s_k'
    ∧ NN.SimpleNN_forward (Train.tr_model s_k) (Train.tr_X s_k) = Ok out
    ∧ Train.tr_stdout s_k'
      = Train.tr_stdout s_k
        ++ (if ((k + 1) mod 20 =? 0)%nat
            then [((k + 1)%nat, Train.mse out (Train.tr_y s_k))] else [])
    ∧ Train.o_value <$> Train.tr_outputs s_k' = Some out
    ∧ Train.l_value <$> Train.tr_loss s_k' = Some (Train.mse out (Train.tr_y s_k))
    ∧ Train.tr_epoch s_k' = Some k.
Proof.
  destruct (train_epochs_S k xdraw d) as (s_k & s_k' & Hk & Hk' & Hit & _).
  destruct Hit as (o & l & m' & Ho & Hl & _ & _ & Hout & Hloss & Hep & _ & _
                   & _ & _ & Hprint).
  destruct (criterion_value _ _ _ Hl) as (Hv & _).
  exists s_k, s_k', (Train.o_value o).
  split; [exact Hk|]. split; [exact Hk'|].
  split; [exact (model_call_value _ _ _ Ho)|].
  split; [by rewrite Hprint, Hv|]. split; [by rewrite Hout|].
  split; [by rewrite Hloss, <- Hv|exact Hep].
Qed.

(** X10.  Gradients do not accumulate from one iteration to the next: after
    every iteration each parameter's [.grad] holds the gradient of that
    iteration's loss alone, and it has the shape of its parameter. *)
Theorem X10_gradients_of_one_loss {F : Type} `{Scalar F}
    (k : nat) (xdraw : nat → nat → F) (d : NN.init_draw F) :
  ∃ s loss,
    Train.train_epochs (S k) xdraw d = Ok s
    ∧ Train.tr_loss s = Some loss
    ∧ TrainSpec.gradients (Train.tr_model s)
      = (Some (TrainSpec.loss_gradients loss).1.1.1,
         Some (TrainSpec.loss_gradients loss).1.1.2,
         Some (TrainSpec.loss_gradients loss).1.2,
         Some (TrainSpec.loss_gradients loss).2)
    ∧ NN.has_shape 5 10 (TrainSpec.loss_gradients loss).1.1.1
    ∧ length (TrainSpec.loss_gradients loss).1.1.2 = 5%nat
    ∧ NN.has_shape 1 5 (TrainSpec.loss_gradients loss).1.2
    ∧ length (TrainSpec.loss_gradients loss).2 = 1%nat.
Proof.
  destruct (train_epochs_S k xdraw d)
    as (s_k & s & _ & Hs & Hit & (_ & _ & Hm) & _).
  destruct Hit as (o & l & m' & _ & _ & Hstep & Hmodel & _ & Hloss & _).
  exists s, l. split; [exact Hs|]. split; [exact Hloss|].
  split.
  - rewrite Hmodel, (step_gradients _ _ _ Hstep).
    by apply backward_fresh_gradients.
  - unfold TrainSpec.loss_gradients. cbn [fst snd].
    split; [apply tabulate2_shape|]. split; [apply tabulate_length|].
    split; [apply tabulate2_shape|apply tabulate_length].
Qed.


(** ** The forward pass on inputs of any width *)

Section ForwardLemmas.
Context {F : Type} `{Scalar F}.
Import NN.

Lemma fits_width (outf inf : nat) (W : matrix F) (r : vec F) :
  has_shape (S outf) inf W → fits W r = true ↔ length r = inf.
Proof.
  intros [Hlen Hall]. destruct W as [|w W]; [discriminate Hlen|].
  apply Forall_cons in Hall as [Hw Hall]. split.
  - unfold fits. cbn [forallb]. intros [Hr _]%andb_prop. apply Nat.eqb_eq in Hr. congruence.
  - intros Hr. eapply fits_shape; [|exact Hr].
    split; [exact Hlen|]. by constructor.
Qed.

Lemma forallb_false_not_Forall {A : Type} (p : A → bool) (P : A → Prop)
    (l : list A) :
  (∀ a, p a = true ↔ P a) → ¬ Forall P l → forallb p l = false.
Proof.
  intros Hp Hnot. destruct (forallb p l) eqn:Hall; [|done].
  exfalso. apply Hnot, Forall_forall. intros a Ha.
  apply Hp. rewrite forallb_forall in Hall. by apply Hall, list_elem_of_In.
Qed.
End ForwardLemmas.

(** X11.  A model of the shapes of [SimpleNN] accepts a batch exactly when
    every row has 10 features: then [forward] returns one output per row,
    otherwise it raises [RuntimeError]. *)
Theorem X11_forward_needs_ten_features {F : Type} `{Scalar F}
    (m : NN.SimpleNN F) (x : matrix F) :
  NN.SimpleNN_shape m →
  (Forall (fun r => length r = 10%nat) x →
   ∃ out, NN.SimpleNN_forward m x = Ok out ∧ NN.has_shape (length x) 1 out)
  ∧ (¬ Forall (fun r => length r = 10%nat) x →
     NN.SimpleNN_forward m x = Err RuntimeError).
Proof.
  intros Hm. split.
  - intros Hx. by apply SimpleNN_forward_ok.
  - intros Hx. destruct Hm as [(_ & _ & HW & _) _].
    unfold NN.SimpleNN_forward, NN.Linear_forward.
    rewrite (forallb_false_not_Forall _ _ x
               (fun r => fits_width 4 10 _ r HW) Hx). done.
Qed.

(** Two rows of ten features are accepted, a row of two is not. *)
Lemma X11_forward_needs_ten_features_witness :
  (∃ out, NN.SimpleNN_forward (NN.SimpleNN_new Examples.zero_init)
            Examples.two_rows = Ok out
          ∧ NN.has_shape 2 1 out)
  ∧ NN.SimpleNN_forward (NN.SimpleNN_new Examples.zero_init) [[1; 2]]%Q
    = Err RuntimeError.
Proof.
  destruct (X11_forward_needs_ten_features (NN.SimpleNN_new Examples.zero_init)
              Examples.two_rows (SimpleNN_new_shape _)) as [Hok _].
  destruct (X11_forward_needs_ten_features (NN.SimpleNN_new Examples.zero_init)
              [[1; 2]]%Q (SimpleNN_new_shape _)) as [_ Hbad].
  split.
  - apply Hok. repeat constructor.
  - apply Hbad. intros Hall. apply Forall_cons in Hall as [Hlen _].
    discriminate Hlen.
Defined.

(** ** [load_state_dict] *)

Section LoadLemmas.
Context {F : Type} `{Scalar F}.
Import NN TrainSpec.

Lemma load_mat_Ok (sd : gmap string (ptensor F)) (k : string)
    (p p' : Param (matrix F)) :
  load_mat sd k p = Ok p' → sd !! k = Some (PMat (data p')) ∧ grad p' = grad p.
Proof.
  unfold load_mat. destruct (sd !! k) as [[t|t]|]; try discriminate.
  destruct (same_shape _ _); [|discriminate]. by intros [= <-].
Qed.

Lemma load_vec_Ok (sd : gmap string (ptensor F)) (k : string)
    (p p' : Param (vec F)) :
  load_vec sd k p = Ok p' → sd !! k = Some (PVec (data p')) ∧ grad p' = grad p.
Proof.
  unfold load_vec. destruct (sd !! k) as [[t|t]|]; try discriminate.
  destruct (same_shape _ _); [|discriminate]. by intros [= <-].
Qed.

Lemma load_mat_Err (sd : gmap string (ptensor F)) (k : string)
    (p : Param (matrix F)) (e : error) :
  load_mat sd k p = Err e → e = RuntimeError.
Proof.
  unfold load_mat. destruct (sd !! k) as [[t|t]|]; try (by intros [= <-]).
  destruct (same_shape _ _); [discriminate|by intros [= <-]].
Qed.

Lemma load_vec_Err (sd : gmap string (ptensor F)) (k : string)
    (p : Param (vec F)) (e : error) :
  load_vec sd k p = Err e → e = RuntimeError.
Proof.
  unfold load_vec. destruct (sd !! k) as [[t|t]|]; try (by intros [= <-]).
  destruct (same_shape _ _); [discriminate|by intros [= <-]].
Qed.

(** Whatever goes wrong in [load_state_dict] is a [RuntimeError]. *)
Lemma load_state_dict_Err (m : SimpleNN F) (sd : gmap string (ptensor F))
    (e : error) :
  load_state_dict m sd = Err e → e = RuntimeError.
Proof.
  unfold load_state_dict. case_bool_decide; [|by intros [= <-]].
  destruct (load_mat sd "layer1.weight" _) eqn:E1;
    [|intros [= <-]; by apply load_mat_Err in E1].
  destruct (load_vec sd "layer1.bias" _) eqn:E2;
    [|intros [= <-]; by apply load_vec_Err in E2].
  destruct (load_mat sd "layer2.weight" _) eqn:E3;
    [|intros [= <-]; by apply load_mat_Err in E3].
  destruct (load_vec sd "layer2.bias" _) eqn:E4;
    [|intros [= <-]; by apply load_vec_Err in E4].
  discriminate.
Qed.
End LoadLemmas.

(** X14.  When [load_state_dict(sd)] returns, the model's state dictionary
    is [sd] itself, and its [.grad] fields and [training] flag are as
    before; it raises [RuntimeError], and nothing else, when a key is
    missing or unexpected or when an entry has not the shape of its
    parameter. *)
Theorem X14_load_state_dict_strict {F : Type} `{Scalar F}
    (m : NN.SimpleNN F) (sd : gmap string (NN.ptensor F)) :
  (∀ m', NN.load_state_dict m sd = Ok m' →
         NN.state_dict m' = sd
         ∧ TrainSpec.gradients m' = TrainSpec.gradients m
         ∧ NN.training m' = NN.training m)
  ∧ (dom sd ≠ dom (NN.state_dict m) →
     NN.load_state_dict m sd = Err RuntimeError)
  ∧ (∀ k p t, (k, p) ∈ NN.parameters m → sd !! k = Some t →
              NN.same_shape p t = false →
              NN.load_state_dict m sd = Err RuntimeError)
  ∧ (∀ e, NN.load_state_dict m sd = Err e → e = RuntimeError).
Proof.
  split; [|split; [|split]].
  - intros m'. unfold NN.load_state_dict. case_bool_decide as Hdom; [|discriminate].
    destruct (NN.load_mat sd "layer1.weight" _) as [w1|] eqn:E1; [|discriminate].
    destruct (NN.load_vec sd "layer1.bias" _) as [b1|] eqn:E2; [|discriminate].
    destruct (NN.load_mat sd "layer2.weight" _) as [w2|] eqn:E3; [|discriminate].
    destruct (NN.load_vec sd "layer2.bias" _) as [b2|] eqn:E4; [|discriminate].
    cbn [rbind]. intros [= <-].
    apply load_mat_Ok in E1 as [S1 G1]. apply load_vec_Ok in E2 as [S2 G2].
    apply load_mat_Ok in E3 as [S3 G3]. apply load_vec_Ok in E4 as [S4 G4].
    split; [|split; [|reflexivity]].
    + unfold NN.state_dict in *.
      cbn [NN.layer1 NN.layer2 NN.weight NN.bias].
      apply map_eq. intros i.
      destruct (decide (i = "layer1.weight")) as [->|N1];
        [by rewrite lookup_insert_eq|rewrite lookup_insert_ne by done].
      destruct (decide (i = "layer1.bias")) as [->|N2];
        [by rewrite lookup_insert_eq|rewrite lookup_insert_ne by done].
      destruct (decide (i = "layer2.weight")) as [->|N3];
        [by rewrite lookup_insert_eq|rewrite lookup_insert_ne by done].
      destruct (decide (i = "layer2.bias")) as [->|N4];
        [by rewrite lookup_insert_eq|rewrite lookup_insert_ne by done].
      rewrite lookup_empty. symmetry. apply not_elem_of_dom.
      rewrite Hdom, !dom_insert_L, dom_empty_L. set_solver.
    + unfold TrainSpec.gradients.
      cbn [NN.layer1 NN.layer2 NN.weight NN.bias]. by rewrite G1, G2, G3, G4.
  - intros Hdom. unfold NN.load_state_dict. by rewrite bool_decide_eq_false_2.
  - intros k p t Hin Hsd Hshape.
    destruct (NN.load_state_dict m sd) as [m'|e] eqn:Hload;
      [|by rewrite (load_state_dict_Err _ _ _ Hload)].
    exfalso. revert Hload. unfold NN.load_state_dict.
    case_bool_decide; [|discriminate].
    destruct (NN.load_mat sd "layer1.weight" _) as [w1|] eqn:E1; [|discriminate].
    destruct (NN.load_vec sd "layer1.bias" _) as [b1|] eqn:E2; [|discriminate].
    destruct (NN.load_mat sd "layer2.weight" _) as [w2|] eqn:E3; [|discriminate].
    destruct (NN.load_vec sd "layer2.bias" _) as [b2|] eqn:E4; [|discriminate].
    intros _. unfold NN.parameters in Hin.
    unfold NN.load_mat, NN.load_vec in E1, E2, E3, E4.
    apply elem_of_cons in Hin as [Hin|Hin].
    { injection Hin as Hk Hp. subst k p. rewrite Hsd in E1.
      destruct t; [rewrite Hshape in E1|]; discriminate E1. }
    apply elem_of_cons in Hin as [Hin|Hin].
    { injection Hin as Hk Hp. subst k p. rewrite Hsd in E2.
      destruct t; [|rewrite Hshape in E2]; discriminate E2. }
    apply elem_of_cons in Hin as [Hin|Hin].
    { injection Hin as Hk Hp. subst k p. rewrite Hsd in E3.
      destruct t; [rewrite Hshape in E3|]; discriminate E3. }
    apply elem_of_cons in Hin as [Hin|Hin].
    { injection Hin as Hk Hp. subst k p. rewrite Hsd in E4.
      destruct t; [|rewrite Hshape in E4]; discriminate E4. }
    by apply elem_of_nil in Hin.
  - apply load_state_dict_Err.
Qed.

(** A state dictionary without the bias of layer 2 is refused. *)
Lemma X14_load_state_dict_strict_witness :
  NN.load_state_dict (NN.SimpleNN_new Examples.zero_init)
    (delete "layer2.bias" (NN.state_dict (NN.SimpleNN_new Examples.zero_init)))
  = Err RuntimeError.
Proof.
  destruct (X14_load_state_dict_strict (NN.SimpleNN_new Examples.zero_init)
              (delete "layer2.bias"
                 (NN.state_dict (NN.SimpleNN_new Examples.zero_init))))
    as (_ & Hdom & _).
  apply Hdom. unfold NN.state_dict.
  rewrite dom_delete_L, !dom_insert_L, dom_empty_L.
  intros Heq.
  assert ("layer2.bias" ∈ ({["layer1.weight"]} ∪ ({["layer1.bias"]}
            ∪ ({["layer2.weight"]} ∪ ({["layer2.bias"]} ∪ ∅))) : gset string))
    as Hin by set_solver.
  rewrite <- Heq in Hin. set_solver.
Defined.


(** ** Indexing a dataset from either end *)

Section IndexLemmas.
Context {F : Type}.
Import Py.

Lemma norm_index_neg (n : nat) (idx : Z) :
  - Z.of_nat n ≤ idx < 0 →
  norm_index n idx = norm_index n (Z.of_nat n + idx).
Proof.
  intros Hidx. rewrite (norm_index_in n (Z.of_nat n + idx)) by lia.
  unfold norm_index.
  destruct (Z.leb_spec 0 idx), (Z.ltb_spec idx (Z.of_nat n)),
    (Z.leb_spec (- Z.of_nat n) idx), (Z.ltb_spec idx 0);
    cbn; try reflexivity; lia.
Qed.

Lemma item_neg {A : Type} (l : list A) (idx : Z) :
  - Z.of_nat (length l) ≤ idx < 0 →
  item l idx = item l (Z.of_nat (length l) + idx).
Proof. intros Hidx. unfold item. by rewrite norm_index_neg. Qed.

(** On an array, a negative index counts from the end. *)
Lemma array_getitem_neg (v : value F) (n : nat) (idx : Z) :
  is_array v = true → py_len v = Ok n → - Z.of_nat n ≤ idx < 0 →
  py_getitem v idx = py_getitem v (Z.of_nat n + idx).
Proof.
  induction v; intros Harr Hlen Hidx; try discriminate Harr;
    cbn [py_len] in Hlen; cbn [py_getitem];
    try (injection Hlen as <-; by rewrite item_neg).
  by rewrite (IHv Harr Hlen Hidx).
Qed.
End IndexLemmas.

(** X15.  Over arrays [X] and [y] of the same length [n], [__getitem__]
    returns a pair exactly for the indices in [-n .. n-1] and raises
    [IndexError] for every other index; a negative index [idx] selects the
    same sample as [n + idx]. *)
Theorem X15_dataset_index_range {F : Type}
    (X y : Py.value F) (n : nat) (idx : Z) :
  Py.is_array X = true → Py.is_array y = true →
  Py.py_len X = Ok n → Py.py_len y = Ok n →
  ((∃ p, Py.CustomDataset_getitem X y idx = Ok p)
   ↔ - Z.of_nat n ≤ idx < Z.of_nat n)
  ∧ (¬ (- Z.of_nat n ≤ idx < Z.of_nat n) →
     Py.CustomDataset_getitem X y idx = Err IndexError)
  ∧ (- Z.of_nat n ≤ idx < 0 →
     Py.CustomDataset_getitem X y idx
     = Py.CustomDataset_getitem X y (Z.of_nat n + idx)).
Proof.
  intros HX Hy HlenX Hleny.
  assert (¬ (- Z.of_nat n ≤ idx < Z.of_nat n) →
          Py.CustomDataset_getitem X y idx = Err IndexError) as Hout.
  { intros Hidx. unfold Py.CustomDataset_getitem.
    rewrite (array_getitem_out X n idx HX HlenX) by lia. reflexivity. }
  assert (- Z.of_nat n ≤ idx < 0 →
          Py.CustomDataset_getitem X y idx
          = Py.CustomDataset_getitem X y (Z.of_nat n + idx)) as Hneg.
  { intros Hidx. unfold Py.CustomDataset_getitem.
    by rewrite (array_getitem_neg X n idx HX HlenX Hidx),
                 (array_getitem_neg y n idx Hy Hleny Hidx). }
  assert (0 ≤ idx < Z.of_nat n →
          ∃ p, Py.CustomDataset_getitem X y idx = Ok p) as Hin.
  { intros Hidx. unfold Py.CustomDataset_getitem.
    destruct (array_getitem_in X n idx HX HlenX Hidx) as [a ->].
    destruct (array_getitem_in y n idx Hy Hleny Hidx) as [b ->].
    by eexists. }
  split; [|split; [exact Hout|exact Hneg]]. split.
  - intros [p Hp].
    destruct (decide (- Z.of_nat n ≤ idx < Z.of_nat n)) as [Hr|Hr]; [exact Hr|].
    rewrite (Hout Hr) in Hp. discriminate Hp.
  - intros Hidx. destruct (decide (0 ≤ idx)) as [Hpos|Hnegative].
    + apply Hin. lia.
    + rewrite Hneg by lia.
      unfold Py.CustomDataset_getitem.
      destruct (array_getitem_in X n (Z.of_nat n + idx) HX HlenX) as [a ->]; [lia|].
      destruct (array_getitem_in y n (Z.of_nat n + idx) Hy Hleny) as [b ->]; [lia|].
      by eexists.
Qed.

(** The last of three samples, from the end and from the start, and an
    index past the end. *)
Lemma X15_dataset_index_range_witness :
  Py.CustomDataset_getitem Examples.three_inputs Examples.three_targets (-1)
  = Py.CustomDataset_getitem Examples.three_inputs Examples.three_targets 2
  ∧ Py.CustomDataset_getitem Examples.three_inputs Examples.three_targets 3
    = Err IndexError.
Proof.
  destruct (X15_dataset_index_range Examples.three_inputs Examples.three_targets
              3 (-1) eq_refl eq_refl eq_refl eq_refl) as (_ & _ & Hneg).
  destruct (X15_dataset_index_range Examples.three_inputs Examples.three_targets
              3 3 eq_refl eq_refl eq_refl eq_refl) as (_ & Hout & _).
  split; [apply Hneg; lia|apply Hout; lia].
Defined.

(** ** Cells and the names they read *)

Section CellLemmas.
Context {F : Type} `{Scalar F} `{Pickler F}.
Import NN Train Py Notebook.

Lemma lookup_name_None (n : string) (w : world F) :
  ns w !! n = None → lookup_name n w = Err (NameError n).
Proof. intros Hn. unfold lookup_name. by rewrite Hn. Qed.

Ltac other := let Heq := fresh in intros Heq; discriminate Heq.

Ltac through :=
  repeat first
    [ rewrite lookup_name_bind_eq
    | rewrite lookup_name_bind_ne by other
    | rewrite lookup_name_print
    | rewrite lookup_name_files
    | progress cbn [rbind] ].

Ltac unchanged Hn :=
  repeat first
    [ rewrite lookup_name_print
    | rewrite lookup_name_files
    | rewrite lookup_name_bind_ne
        by (intros ->; apply Hn; rewrite !elem_of_cons; tauto) ];
  try reflexivity.

(** What the training cell leaves in the names it assigns. *)
Lemma cell_train_bindings (e : env F) (w : world F) (torch : value F)
    (t : trainer F) :
  lookup_name "torch" w = Ok torch →
  lookup_name "nn" w = Ok (VLib "torch.nn") →
  lookup_name "SimpleNN" w = Ok (VClass "SimpleNN") →
  training_cell (randn_draw e) (init_cell18 e) = Ok t →
  ∃ w', cell_train e w = Ok w'
        ∧ lookup_name "epoch" w' = Ok (opt_epoch (tr_epoch t))
        ∧ lookup_name "outputs" w' = Ok (opt_matrix (tr_outputs t))
        ∧ lookup_name "loss" w' = Ok (opt_loss (tr_loss t))
        ∧ lookup_name "model" w' = Ok (VModel (tr_model t))
        ∧ stdout w' = stdout w ++ map loss_line (tr_stdout t).
Proof.
  intros Htorch Hnn Hcls Ht.
  unfold cell_train. through. rewrite Htorch. cbn [rbind].
  rewrite call_SimpleNN_ok by (through; assumption).
  through. rewrite Hnn. through. rewrite Ht. cbn [rbind]. clear Ht.
  eexists. split; [reflexivity|].
  split; [through; reflexivity|]. split; [through; reflexivity|].
  split; [through; reflexivity|]. split; [through; reflexivity|reflexivity].
Qed.

(** The last iteration of the training cell. *)
Lemma training_cell_last (xdraw : nat → nat → F) (d : init_draw F) :
  ∃ s99 s100 out,
    train_epochs 99 xdraw d = Ok s99
    ∧ training_cell xdraw d = Ok s100
    ∧ SimpleNN_forward (tr_model s99) (tr_X s99) = Ok out
    ∧ tr_epoch s100 = Some 99%nat
    ∧ o_value <$> tr_outputs s100 = Some out
    ∧ l_value <$> tr_loss s100 = Some (mse out (tr_y s99))
    ∧ length (tr_stdout s100) = 5%nat.
Proof.
  destruct (for_each_ok (range 99) _ (setup_inv xdraw d))
    as (s99 & H99 & Hinv & _ & Hp & _).
  destruct (epoch_body_ok 99 s99 Hinv) as (s100 & Hb & Hit & _).
  destruct Hit as (o & l & m' & Ho & Hl & _ & _ & Hout & Hloss & Hep & _ & _
                   & _ & _ & Hprint).
  destruct (criterion_value _ _ _ Hl) as (Hv & _).
  exists s99, s100, (o_value o). split; [exact H99|].
  split.
  { unfold training_cell, train_epochs, range.
    rewrite (seq_S 99 0), for_each_app. fold (range 99). rewrite H99.
    cbn [rbind for_each Nat.add]. rewrite Hb. reflexivity. }
  clear H99 Hb.
  split; [exact (model_call_value _ _ _ Ho)|]. split; [exact Hep|].
  split; [rewrite Hout; reflexivity|].
  split; [rewrite Hloss, <- Hv; reflexivity|].
  rewrite Hprint, length_app, <- (length_map fst (tr_stdout s99)), Hp.
  reflexivity.
Qed.



End CellLemmas.

Section CellWitnesses.
Import NN Train Py Notebook Examples.
Local Existing Instance Pickler_storage.



End CellWitnesses.
